(** * carddav-birthdays: the record extractor and the calendar serializer

    A shallow embedding of [parseBirthdayVCard] and [generateBirthdayIcs]
    together with the parts of the Go standard library they call
    ([strings], [unicode/utf8], [unicode], [time], [fmt]).

    Go strings are byte sequences; they are modelled by [string], whose
    characters ([ascii]) are exactly the 256 byte values.  Go's [int] is
    modelled by [Z]; the value [-1] is kept where Go uses it for "absent". *)

From Stdlib Require Import ZArith List Bool Lia Ascii String DecimalString.
From Stdlib Require Import Permutation.
Import ListNotations.

Open Scope string_scope.
Open Scope Z_scope.

(** ** Bytes and slices *)

Definition byte_of (c : ascii) : Z := Z.of_nat (nat_of_ascii c).

Definition chr (n : nat) : string := String (ascii_of_nat n) EmptyString.

Definition LF : string := chr 10.
Definition CR : string := chr 13.
Definition CRLF : string := CR ++ LF.

(** [s[:n]] and [s[n:]]. *)
Fixpoint take (n : nat) (s : string) : string :=
  match n, s with
  | S n', String c s' => String c (take n' s')
  | _, _ => EmptyString
  end.

Fixpoint drop (n : nat) (s : string) : string :=
  match n, s with
  | S n', String _ s' => drop n' s'
  | _, _ => s
  end.

Definition is_empty (s : string) : bool :=
  match s with EmptyString => true | String _ _ => false end.

(** [s[i]] as a byte value, [-1] when [i] is out of range (Go would panic;
    every use below is guarded by a length test). *)
Definition byte_at (s : string) (i : nat) : Z :=
  match String.get i s with
  | Some c => byte_of c
  | None => -1
  end.

(** ** Package unicode/utf8 *)

Module utf8.

Definition RuneError : Z := 65533.
Definition RuneSelf : Z := 128.
Definition UTFMax : nat := 4.
Definition locb : Z := 128.
Definition hicb : Z := 191.

(** The [first] table: what a leading byte announces. *)
Inductive first_info : Type :=
| as_ascii
| xx_invalid
| lead (size : nat) (lo hi : Z).

Definition first (b : Z) : first_info :=
  if b <? 128 then as_ascii
  else if b <? 194 then xx_invalid
  else if b <? 224 then lead 2 locb hicb
  else if b =? 224 then lead 3 160 hicb
  else if b <? 237 then lead 3 locb hicb
  else if b =? 237 then lead 3 locb 159
  else if b <? 240 then lead 3 locb hicb
  else if b =? 240 then lead 4 144 hicb
  else if b <? 244 then lead 4 locb hicb
  else if b =? 244 then lead 4 locb 143
  else xx_invalid.

Definition cont (b : Z) : bool := (locb <=? b) && (b <=? hicb).

(** [DecodeRuneInString]: the first rune of [s] and its width in bytes. *)
Definition DecodeRuneInString (s : string) : Z * nat :=
  match s with
  | EmptyString => (RuneError, 0%nat)
  | String c0 _ =>
    let s0 := byte_of c0 in
    match first s0 with
    | as_ascii => (s0, 1%nat)
    | xx_invalid => (RuneError, 1%nat)
    | lead sz lo hi =>
      if (String.length s <? sz)%nat then (RuneError, 1%nat)
      else
        let s1 := byte_at s 1 in
        if (s1 <? lo) || (hi <? s1) then (RuneError, 1%nat)
        else if (sz <=? 2)%nat then
          (Z.lor (Z.shiftl (Z.land s0 31) 6) (Z.land s1 63), 2%nat)
        else
          let s2 := byte_at s 2 in
          if negb (cont s2) then (RuneError, 1%nat)
          else if (sz <=? 3)%nat then
            (Z.lor (Z.lor (Z.shiftl (Z.land s0 15) 12)
                          (Z.shiftl (Z.land s1 63) 6))
                   (Z.land s2 63), 3%nat)
          else
            let s3 := byte_at s 3 in
            if negb (cont s3) then (RuneError, 1%nat)
            else
              (Z.lor (Z.lor (Z.lor (Z.shiftl (Z.land s0 7) 18)
                                   (Z.shiftl (Z.land s1 63) 12))
                            (Z.shiftl (Z.land s2 63) 6))
                     (Z.land s3 63), 4%nat)
    end
  end.

Definition RuneStart (b : Z) : bool := negb (Z.land b 192 =? 128).

(** The backward scan of [DecodeLastRuneInString]: from [start], step down
    while [start >= lim] and the byte there does not start a rune.  The
    result is the final [start], which may be [lim - 1]. *)
Fixpoint back_to_start (fuel : nat) (s : string) (start lim : Z) : Z :=
  match fuel with
  | O => start
  | S fuel' =>
    if start <? lim then start
    else if RuneStart (byte_at s (Z.to_nat start)) then start
    else back_to_start fuel' s (start - 1) lim
  end.

Definition DecodeLastRuneInString (s : string) : Z * nat :=
  let end_ := Z.of_nat (String.length s) in
  if end_ =? 0 then (RuneError, 0%nat)
  else
    let start := end_ - 1 in
    let r := byte_at s (Z.to_nat start) in
    if r <? RuneSelf then (r, 1%nat)
    else
      let lim := Z.max 0 (end_ - Z.of_nat UTFMax) in
      let start := back_to_start (S UTFMax) s (start - 1) lim in
      let start := Z.max 0 start in
      let '(r, size) := DecodeRuneInString (drop (Z.to_nat start) s) in
      if start + Z.of_nat size =? end_ then (r, size) else (RuneError, 1%nat).

End utf8.

(** ** Package unicode *)

Module unicode.

Definition MaxLatin1 : Z := 255.

(** [IsSpace]: below [MaxLatin1] the eight listed code points; above it the
    [White_Space] range table. *)
Definition IsSpace (r : Z) : bool :=
  if r <=? MaxLatin1 then
    (r =? 9) || (r =? 10) || (r =? 11) || (r =? 12) || (r =? 13)
    || (r =? 32) || (r =? 133) || (r =? 160)
  else
    (r =? 5760) || ((8192 <=? r) && (r <=? 8202))
    || (r =? 8232) || (r =? 8233) || (r =? 8239) || (r =? 8287)
    || (r =? 12288).

End unicode.

(** ** Package strings *)

Module strings.

Definition HasPrefix (s prefix : string) : bool := String.prefix prefix s.

Definition TrimPrefix (s prefix : string) : string :=
  if HasPrefix s prefix then drop (String.length prefix) s else s.

(** [Index]: the byte offset of the first occurrence of [substr], or [-1]. *)
Fixpoint Index (s substr : string) : Z :=
  if HasPrefix s substr then 0
  else
    match s with
    | EmptyString => -1
    | String _ s' =>
      let i := Index s' substr in
      if i <? 0 then -1 else i + 1
    end.

Definition Contains (s substr : string) : bool := 0 <=? Index s substr.

(** [genSplit] for a non-empty separator and no limit.  Go bounds the loop
    by [Count(s, sep)]; the loop also leaves as soon as [Index] fails, so any
    bound of at least that many rounds gives the same slice.  [Split] runs it
    with [len(s)] rounds. *)
Fixpoint genSplit (n : nat) (s sep : string) : list string :=
  match n with
  | O => [s]
  | S n' =>
    let m := Index s sep in
    if m <? 0 then [s]
    else take (Z.to_nat m) s
         :: genSplit n' (drop (Z.to_nat m + String.length sep) s) sep
  end.

Definition Split (s sep : string) : list string :=
  genSplit (String.length s) s sep.

(** [Replace(s, old, new, -1)] for a non-empty [old]: every non-overlapping
    occurrence, left to right. *)
Fixpoint replaceLoop (n : nat) (s old new : string) : string :=
  match n with
  | O => s
  | S n' =>
    let j := Index s old in
    if j <? 0 then s
    else take (Z.to_nat j) s ++ new
         ++ replaceLoop n' (drop (Z.to_nat j + String.length old) s) old new
  end.

Definition ReplaceAll (s old new : string) : string :=
  replaceLoop (String.length s) s old new.

(** [indexFunc]: the offset of the first rune [r] with [f r = truth],
    ranging over the runes of [s]; [i] is the offset of [s] in the string
    the scan started from. *)
Fixpoint indexFunc_from (fuel : nat) (i : nat) (s : string)
    (f : Z -> bool) (truth : bool) : Z :=
  match fuel with
  | O => -1
  | S fuel' =>
    if is_empty s then -1
    else
      let '(r, size) := utf8.DecodeRuneInString s in
      if Bool.eqb (f r) truth then Z.of_nat i
      else indexFunc_from fuel' (i + size) (drop size s) f truth
  end.

Definition indexFunc (s : string) (f : Z -> bool) (truth : bool) : Z :=
  indexFunc_from (String.length s) 0 s f truth.

(** [lastIndexFunc]: the same from the end; [i] is the length of the part
    still to be scanned. *)
Fixpoint lastIndexFunc_from (fuel : nat) (i : nat) (s : string)
    (f : Z -> bool) (truth : bool) : Z :=
  match fuel with
  | O => -1
  | S fuel' =>
    if (i =? 0)%nat then -1
    else
      let '(r, size) := utf8.DecodeLastRuneInString (take i s) in
      let i' := (i - size)%nat in
      if Bool.eqb (f r) truth then Z.of_nat i'
      else lastIndexFunc_from fuel' i' s f truth
  end.

Definition lastIndexFunc (s : string) (f : Z -> bool) (truth : bool) : Z :=
  lastIndexFunc_from (String.length s) (String.length s) s f truth.

Definition TrimLeftFunc (s : string) (f : Z -> bool) : string :=
  let i := indexFunc s f false in
  if i =? -1 then EmptyString else drop (Z.to_nat i) s.

Definition TrimRightFunc (s : string) (f : Z -> bool) : string :=
  let i := lastIndexFunc s f false in
  let i :=
    if (0 <=? i) && (utf8.RuneSelf <=? byte_at s (Z.to_nat i)) then
      i + Z.of_nat (snd (utf8.DecodeRuneInString (drop (Z.to_nat i) s)))
    else i + 1 in
  take (Z.to_nat i) s.

Definition TrimFunc (s : string) (f : Z -> bool) : string :=
  TrimRightFunc (TrimLeftFunc s f) f.

(** [TrimSpace] removes leading and trailing white space as Unicode defines
    it.  (Recent Go versions add a fast path for ASCII with the same
    result.) *)
Definition TrimSpace (s : string) : string := TrimFunc s unicode.IsSpace.

(** [strings.Builder]: the bytes written so far. *)
Definition Builder : Type := string.
Definition WriteString (sb : Builder) (s : string) : Builder := sb ++ s.

End strings.

(** ** Package time

    Every [time.Time] of this program comes from [time.Parse] with a
    date-only layout (or from a [date.Date]): the clock reads 00:00:00 UTC,
    and the value is determined by its year, month and day. *)

Module time.

Record Time : Type := mkTime { Year : Z; Month : Z; Day : Z }.

(** The layout elements of the layouts used by this program; Go knows more
    of them, none of which occurs in ["20060102"], ["2006-01-02"] or
    ["2006/01/02"]. *)
Inductive stdChunk : Type := stdLongYear | stdZeroMonth | stdZeroDay.

(** [nextStdChunk]: the literal prefix before the first layout element, the
    element, and the rest of the layout. *)
Fixpoint nextStdChunk (layout : string) : string * option stdChunk * string :=
  match layout with
  | EmptyString => (EmptyString, None, EmptyString)
  | String c rest =>
    if strings.HasPrefix layout "2006" then
      (EmptyString, Some stdLongYear, drop 4 layout)
    else if strings.HasPrefix layout "01" then
      (EmptyString, Some stdZeroMonth, drop 2 layout)
    else if strings.HasPrefix layout "02" then
      (EmptyString, Some stdZeroDay, drop 2 layout)
    else
      let '(prefix, std, suffix) := nextStdChunk rest in
      (String c prefix, std, suffix)
  end.

Definition isDigit (s : string) (i : nat) : bool :=
  let c := byte_at s i in (48 <=? c) && (c <=? 57).

(** [getnum]: one or two digits; exactly two when [fixed]. *)
Definition getnum (s : string) (fixed : bool) : option (Z * string) :=
  if negb (isDigit s 0) then None
  else if negb (isDigit s 1) then
    if fixed then None else Some (byte_at s 0 - 48, drop 1 s)
  else Some ((byte_at s 0 - 48) * 10 + (byte_at s 1 - 48), drop 2 s).

(** [leadingInt]: the value of the leading digits and the rest. *)
Fixpoint leadingInt (x : Z) (s : string) : Z * string :=
  match s with
  | EmptyString => (x, s)
  | String c s' =>
    let b := byte_of c in
    if (48 <=? b) && (b <=? 57) then leadingInt (x * 10 + (b - 48)) s'
    else (x, s)
  end.

(** [atoi]: an optional sign and digits only.  (The 64-bit overflow test is
    left out: the only call passes four bytes.) *)
Definition atoi (s : string) : option Z :=
  let neg := strings.HasPrefix s "-" in
  let s := if neg || strings.HasPrefix s "+" then drop 1 s else s in
  let '(q, rem) := leadingInt 0 s in
  if is_empty rem then Some (if neg then - q else q) else None.

(** [skip]: the literal [prefix] must open [value].  (A space in a layout
    matches a run of spaces; the layouts used have none.) *)
Fixpoint skip (value prefix : string) : option string :=
  match prefix with
  | EmptyString => Some value
  | String p prefix' =>
    match value with
    | EmptyString => None
    | String v value' =>
      if Ascii.eqb v p then skip value' prefix' else None
    end
  end.

Definition isLeap (year : Z) : bool :=
  (year mod 4 =? 0) && (negb (year mod 100 =? 0) || (year mod 400 =? 0)).

Definition daysIn (m year : Z) : Z :=
  if (m =? 2) && isLeap year then 29
  else if m =? 2 then 28
  else if (m =? 4) || (m =? 6) || (m =? 9) || (m =? 11) then 30
  else 31.

(** The element loop of [parse]: [None] is a non-nil error.  Each round
    with an element shortens [layout], so [S (len layout)] rounds reach the
    end of the layout. *)
Fixpoint parseLoop (fuel : nat) (layout value : string) (year month day : Z)
    : option (Z * Z * Z) :=
  match fuel with
  | O => None
  | S fuel' =>
    let '(prefix, std, suffix) := nextStdChunk layout in
    match skip value prefix with
    | None => None
    | Some value =>
      match std with
      | None =>
        if is_empty value then Some (year, month, day) else None
      | Some stdLongYear =>
        if (String.length value <? 4)%nat || negb (isDigit value 0) then None
        else
          match atoi (take 4 value) with
          | None => None
          | Some year => parseLoop fuel' suffix (drop 4 value) year month day
          end
      | Some stdZeroMonth =>
        match getnum value true with
        | None => None
        | Some (month, value) =>
          if (month <=? 0) || (12 <? month) then None
          else parseLoop fuel' suffix value year month day
        end
      | Some stdZeroDay =>
        match getnum value true with
        | None => None
        | Some (day, value) => parseLoop fuel' suffix value year month day
        end
      end
    end
  end.

(** [time.Parse]: fields the layout does not set default to January and to
    the first day; the day is then validated against the month. *)
Definition Parse (layout value : string) : option Time :=
  match parseLoop (S (String.length layout)) layout value 0 (-1) (-1) with
  | None => None
  | Some (year, month, day) =>
    let month := if month <? 0 then 1 else month in
    let day := if day <? 0 then 1 else day in
    if (day <? 1) || (daysIn month year <? day) then None
    else Some (mkTime year month day)
  end.

Fixpoint zeros (n : nat) : string :=
  match n with
  | O => EmptyString
  | S n' => String "0" (zeros n')
  end.

(** [appendInt]: decimal, zero-padded to [width], a leading [-] when
    negative. *)
Definition appendInt (b : string) (x : Z) (width : nat) : string :=
  let digits := NilZero.string_of_uint (N.to_uint (Z.abs_N x)) in
  b ++ (if x <? 0 then "-" else "")
    ++ zeros (width - String.length digits) ++ digits.

Fixpoint formatLoop (fuel : nat) (b : string) (layout : string) (t : Time)
    : string :=
  match fuel with
  | O => b
  | S fuel' =>
    let '(prefix, std, suffix) := nextStdChunk layout in
    let b := b ++ prefix in
    match std with
    | None => b
    | Some stdLongYear => formatLoop fuel' (appendInt b (Year t) 4) suffix t
    | Some stdZeroMonth => formatLoop fuel' (appendInt b (Month t) 2) suffix t
    | Some stdZeroDay => formatLoop fuel' (appendInt b (Day t) 2) suffix t
    end
  end.

Definition Format (t : Time) (layout : string) : string :=
  formatLoop (S (String.length layout)) EmptyString layout t.

End time.

(** ** Package fmt *)

Module fmt.

(** The verb [%d] on an [int]. *)
Definition verb_d (n : Z) : string := NilZero.string_of_int (Z.to_int n).

End fmt.

(** ** Package goslu/date *)

Module date.

(** Modelled from the spec: the type [date.Date] of the library goslu, whose
    source is not part of this repository: "a calendar date (year, month,
    day) with no time-of-day or timezone component". *)
Record Date : Type := mkDate { year : Z; month : Z; day : Z }.

(** Modelled from the spec: [date.FromTime] keeps the calendar date of a
    [time.Time]. *)
Definition FromTime (t : time.Time) : Date :=
  mkDate (time.Year t) (time.Month t) (time.Day t).

(** Modelled from the spec: [Date.ToStdTime] is that date at midnight. *)
Definition ToStdTime (d : Date) : time.Time :=
  time.mkTime (year d) (month d) (day d).

End date.

(** ** The program: src/unnamed/part_000 *)

Record Birthday : Type := mkBirthday {
  UID : string;
  Date : date.Date;
  FullName : string
}.

(** *** parseBirthdayVCard *)

(** The local variables of [parseBirthdayVCard] that live across the line
    loop, and what [fmt.Printf] has written to standard output so far. *)
Record locals : Type := mkLocals {
  name : string;
  fullName : string;
  uid : string;
  birthdayDate : option time.Time;
  stdout : list string
}.

Definition locals0 : locals :=
  mkLocals EmptyString EmptyString EmptyString None [].

Definition formats : list string := ["20060102"; "2006-01-02"; "2006/01/02"].

(** The loop over [formats]: the first layout that parses assigns
    [birthdayDate] and breaks. *)
Fixpoint tryFormats (formats : list string) (bdayStr : string)
    (birthdayDate : option time.Time) : option time.Time :=
  match formats with
  | [] => birthdayDate
  | format :: rest =>
    match time.Parse format bdayStr with
    | Some date => Some date
    | None => tryFormats rest bdayStr birthdayDate
    end
  end.

(** The value taken from a line that starts with [BDAY] (lines 40-51);
    empty when neither form applies. *)
Definition bdayStrOf (line : string) : string :=
  if strings.Contains line ";VALUE=date:" then
    let parts := strings.Split line ";VALUE=date:" in
    if (List.length parts =? 2)%nat then nth 1 parts EmptyString
    else EmptyString
  else if strings.HasPrefix line "BDAY:" then strings.TrimPrefix line "BDAY:"
  else EmptyString.

(** Lines 54-57: cut at the first [T]. *)
Definition stripTime (bdayStr : string) : string :=
  let idx := strings.Index bdayStr "T" in
  if negb (idx =? -1) then take (Z.to_nat idx) bdayStr else bdayStr.

(** One round of the line loop after the line was trimmed (lines 25-71). *)
Definition processLine (st : locals) (line : string) : locals :=
  let name :=
    if strings.HasPrefix line "N:" then strings.TrimPrefix line "N:"
    else name st in
  let fullName :=
    if strings.HasPrefix line "FN:" then strings.TrimPrefix line "FN:"
    else fullName st in
  let uid :=
    if strings.HasPrefix line "UID:" then strings.TrimPrefix line "UID:"
    else uid st in
  if strings.HasPrefix line "BDAY" then
    let bdayStr := bdayStrOf line in
    if negb (is_empty bdayStr) then
      let bdayStr := stripTime bdayStr in
      let birthdayDate := tryFormats formats bdayStr (birthdayDate st) in
      let stdout :=
        match birthdayDate with
        | None =>
          List.app (stdout st)
            ["failed to parse birthday date: " ++ bdayStr ++ LF]
        | Some _ => stdout st
        end in
      mkLocals name fullName uid birthdayDate stdout
    else mkLocals name fullName uid (birthdayDate st) (stdout st)
  else mkLocals name fullName uid (birthdayDate st) (stdout st).

(** One round of the line loop (lines 22-72). *)
Definition scanLine (st : locals) (line : string) : locals :=
  processLine st (strings.TrimSpace line).

Definition scanLines (lines : list string) (st : locals) : locals :=
  fold_left scanLine lines st.

(** The locals after the loop over [strings.Split(vcard, "\n")]. *)
Definition scanVCard (vcard : string) : locals :=
  scanLines (strings.Split vcard LF) locals0.

(** Lines 74-88: what is returned from the final locals ([None] is [nil]). *)
Definition result (st : locals) : option Birthday :=
  match birthdayDate st with
  | Some t =>
    if negb (is_empty (name st)) || negb (is_empty (fullName st)) then
      let displayName :=
        if is_empty (fullName st) then name st else fullName st in
      Some (mkBirthday (uid st) (date.FromTime t) displayName)
    else None
  | None => None
  end.

Definition parseBirthdayVCard (vcard : string) : option Birthday :=
  result (scanVCard vcard).

(** *** getBirthdays (src/main.go, lines 160-169)

    The loop that feeds every record of the reply to the extractor and
    keeps the facts it returns, in the order of the records. *)
Fixpoint collectBirthdays (vcards : list string) : list Birthday :=
  match vcards with
  | [] => []
  | vcard :: rest =>
    match parseBirthdayVCard vcard with
    | Some birthday => birthday :: collectBirthdays rest
    | None => collectBirthdays rest
    end
  end.

(** *** generateBirthdayIcs *)

Section Serializer.

(** [Date.String] of goslu: the spec only calls its result a
    "human-readable date", so it is left open. *)
Variable Date_String : date.Date -> string.

(** One round of the loop over [birthdays] (lines 102-109).  The
    [Sprintf] of line 103 is written out: the name without spaces for [%s],
    the literal, the year for [%d]. *)
Definition writeEvent (sb : strings.Builder) (birthday : Birthday)
    : strings.Builder :=
  let sb := strings.WriteString sb ("BEGIN:VEVENT" ++ CRLF) in
  let sb := strings.WriteString sb
    ("UID:"
     ++ (strings.ReplaceAll (FullName birthday) " " "" ++ "-birthday-"
         ++ fmt.verb_d (time.Year (date.ToStdTime (Date birthday))))
     ++ CRLF) in
  let sb := strings.WriteString sb
    ("DTSTART;VALUE=DATE:"
     ++ time.Format (date.ToStdTime (Date birthday)) "20060102" ++ CRLF) in
  let sb := strings.WriteString sb ("RRULE:FREQ=YEARLY" ++ CRLF) in
  let sb := strings.WriteString sb
    ("SUMMARY:" ++ FullName birthday ++ "'s Birthday" ++ CRLF) in
  let sb := strings.WriteString sb
    ("DESCRIPTION:" ++ FullName birthday ++ " born on "
     ++ Date_String (Date birthday) ++ CRLF) in
  let sb := strings.WriteString sb ("TRANSP:TRANSPARENT" ++ CRLF) in
  let sb := strings.WriteString sb ("END:VEVENT" ++ CRLF) in
  sb.

Definition generateBirthdayIcs (birthdays : list Birthday)
    (today : date.Date) : string :=
  let sb : strings.Builder := EmptyString in
  let sb := strings.WriteString sb ("BEGIN:VCALENDAR" ++ CRLF) in
  let sb := strings.WriteString sb ("VERSION:2.0" ++ CRLF) in
  let sb := strings.WriteString sb ("PRODID:-//CardDAV Birthdays//EN" ++ CRLF) in
  let sb := strings.WriteString sb ("CALSCALE:GREGORIAN" ++ CRLF) in
  let sb := fold_left writeEvent birthdays sb in
  let sb := strings.WriteString sb ("END:VCALENDAR" ++ CRLF) in
  sb.

End Serializer.

(** ** Notions the specification speaks of *)

(** The byte [c] occurs in [s]. *)
Fixpoint has_byte (c : ascii) (s : string) : bool :=
  match s with
  | EmptyString => false
  | String x s' => Ascii.eqb x c || has_byte c s'
  end.

Definition ascii_LF : ascii := ascii_of_nat 10.

(** The date a trimmed line yields by itself: the first of the three
    formats that parses its birthday value, if the line is a birthday line
    with a value and some format parses it. *)
Definition lineDate (line : string) : option time.Time :=
  if strings.HasPrefix line "BDAY" then
    let bdayStr := bdayStrOf line in
    if is_empty bdayStr then None
    else tryFormats formats (stripTime bdayStr) None
  else None.

(** The same for a line of the raw record. *)
Definition rawDate (raw : string) : option time.Time :=
  lineDate (strings.TrimSpace raw).

(** The date of the last line, in record order, that yields one. *)
Fixpoint lastDate (lines : list string) : option time.Time :=
  match lines with
  | [] => None
  | raw :: rest =>
    match lastDate rest with
    | Some d => Some d
    | None => rawDate raw
    end
  end.

(** The value of a field matched by line prefix: what follows the prefix on
    the last trimmed line that carries it; empty when no line does. *)
Definition fieldValue (prefix : string) (lines : list string) : string :=
  match find (fun line => strings.HasPrefix line prefix)
             (rev (map strings.TrimSpace lines)) with
  | Some line => strings.TrimPrefix line prefix
  | None => EmptyString
  end.

(** The last birthday line of a record: the last trimmed line that starts
    with [BDAY]. *)
Definition lastBirthdayLine (lines : list string) : option string :=
  find (fun line => strings.HasPrefix line "BDAY")
       (rev (map strings.TrimSpace lines)).

(** The date the last birthday line yields by itself. *)
Definition lastBirthdayLineDate (lines : list string) : option time.Time :=
  match lastBirthdayLine lines with
  | Some line => lineDate line
  | None => None
  end.

(** A text made of the given lines, each closed by CR LF. *)
Fixpoint unlines (ls : list string) : string :=
  match ls with
  | [] => EmptyString
  | l :: ls' => l ++ CRLF ++ unlines ls'
  end.

(** The lines of a document: every piece up to and including a line feed;
    what follows the last line feed, unless empty, is a last line without
    terminator.  [cur] is the part of the current line already read. *)
Fixpoint linesFrom (cur doc : string) : list string :=
  match doc with
  | EmptyString => if is_empty cur then [] else [cur]
  | String c rest =>
    if Ascii.eqb c ascii_LF then
      (cur ++ String c EmptyString) :: linesFrom EmptyString rest
    else linesFrom (cur ++ String c EmptyString) rest
  end.

Definition linesOf (doc : string) : list string := linesFrom EmptyString doc.

(** [l] ends with CR LF. *)
Fixpoint endsWithCRLF (l : string) : bool :=
  String.eqb l CRLF
  || match l with
     | EmptyString => false
     | String _ l' => endsWithCRLF l'
     end.

(** Every line of the document ends with CR LF. *)
Definition crlfTerminated (doc : string) : Prop :=
  Forall (fun l => endsWithCRLF l = true) (linesOf doc).

Definition headerLines : list string :=
  ["BEGIN:VCALENDAR"; "VERSION:2.0"; "PRODID:-//CardDAV Birthdays//EN";
   "CALSCALE:GREGORIAN"].

Definition footerLines : list string := ["END:VCALENDAR"].

Section EventBlock.

Variable Date_String : date.Date -> string.

(** The six fields of the event of one fact. *)
Definition eventFields (b : Birthday) : list string :=
  ["UID:" ++ strings.ReplaceAll (FullName b) " " "" ++ "-birthday-"
     ++ fmt.verb_d (date.year (Date b));
   "DTSTART;VALUE=DATE:" ++ time.Format (date.ToStdTime (Date b)) "20060102";
   "RRULE:FREQ=YEARLY";
   "SUMMARY:" ++ FullName b ++ "'s Birthday";
   "DESCRIPTION:" ++ FullName b ++ " born on " ++ Date_String (Date b);
   "TRANSP:TRANSPARENT"].

(** The event block of one fact: the six fields between the two lines that
    open and close an event. *)
Definition eventLines (b : Birthday) : list string :=
  List.app ("BEGIN:VEVENT" :: eventFields b) ["END:VEVENT"].

End EventBlock.

(** ** Sample inputs *)

(** The record with a birthday line that parses followed by one that does
    not. *)
Definition vcard_two_birthday_lines : string :=
  "FN:Jane Doe" ++ LF ++ "BDAY:20030615" ++ LF ++ "BDAY:not-a-date".

(** A fact whose display name holds a line feed. *)
Definition birthday_with_line_feed : Birthday :=
  mkBirthday "uid-1" (date.mkDate 2003 6 15) ("Jane" ++ LF ++ "Doe").

(** A rendering of dates to run the serializer with: year-month-day. *)
Definition iso_date (d : date.Date) : string :=
  time.Format (date.ToStdTime d) "2006-01-02".

(** ** More notions for the properties below *)

(** A decimal digit, and its value. *)
Definition isDigitChar (c : ascii) : bool :=
  (48 <=? byte_of c) && (byte_of c <=? 57).

Definition digitVal (c : ascii) : Z := byte_of c - 48.

(** The layout made of year, month and day with [sep] between them. *)
Definition layoutWith (sep : string) : string :=
  "2006" ++ sep ++ "01" ++ sep ++ "02".

(** The text of a date: four digits, two digits, two digits, with [sep]
    between them. *)
Definition dateText (sep : string) (y1 y2 y3 y4 m1 m2 d1 d2 : ascii)
    : string :=
  String y1 (String y2 (String y3 (String y4
    (sep ++ String m1 (String m2 (sep ++ String d1 (String d2 EmptyString))))))).

Definition number4 (a b c d : ascii) : Z :=
  digitVal a * 1000 + digitVal b * 100 + digitVal c * 10 + digitVal d.

Definition number2 (a b : ascii) : Z := digitVal a * 10 + digitVal b.

(** A date of the Gregorian calendar with a year of four digits. *)
Definition validDate (t : time.Time) : Prop :=
  0 <= time.Year t <= 9999
  /\ 1 <= time.Month t <= 12
  /\ 1 <= time.Day t <= time.daysIn (time.Month t) (time.Year t).

(** The ten digits. *)
Definition digitChars : list ascii :=
  ["0"; "1"; "2"; "3"; "4"; "5"; "6"; "7"; "8"; "9"]%char.

(** What stands between year, month and day in the three formats. *)
Definition separators : list string := [EmptyString; "-"; "/"].

(** The line matters to the extractor: trimmed, it starts with one of the
    four prefixes. *)
Definition relevantLine (raw : string) : bool :=
  let line := strings.TrimSpace raw in
  strings.HasPrefix line "N:" || strings.HasPrefix line "FN:"
  || strings.HasPrefix line "UID:" || strings.HasPrefix line "BDAY".

(** The diagnostic a line causes while no date is known: the message for a
    birthday line whose value is not empty and fails every format. *)
Definition diagnosticOf (raw : string) : list string :=
  let line := strings.TrimSpace raw in
  if strings.HasPrefix line "BDAY" && negb (is_empty (bdayStrOf line)) then
    match tryFormats formats (stripTime (bdayStrOf line)) None with
    | Some _ => []
    | None =>
      ["failed to parse birthday date: " ++ stripTime (bdayStrOf line) ++ LF]
    end
  else [].

(** The diagnostics of a record: those of its lines up to the first line
    that yields a date. *)
Fixpoint diagnostics (lines : list string) : list string :=
  match lines with
  | [] => []
  | raw :: rest =>
    match rawDate raw with
    | Some _ => []
    | None => List.app (diagnosticOf raw) (diagnostics rest)
    end
  end.


(** An ASCII blank: tab, line feed, vertical tab, form feed, carriage
    return or space. *)
Definition asciiSpace (c : ascii) : bool :=
  let b := byte_of c in
  (b =? 9) || (b =? 10) || (b =? 11) || (b =? 12) || (b =? 13) || (b =? 32).

(** Every byte of [s] is an ASCII blank. *)
Fixpoint allBlank (s : string) : bool :=
  match s with
  | EmptyString => true
  | String c s' => asciiSpace c && allBlank s'
  end.

(** The lines with a carriage return behind each but the last: joined with
    line feeds they are the record with CR LF between its lines. *)
Fixpoint crEnded (ls : list string) : list string :=
  match ls with
  | [] => []
  | [l] => [l]
  | l :: rest => (l ++ CR) :: crEnded rest
  end.

(** ** The program: src/main.go *)

Record AddressBook : Type := mkAddressBook {
  Name : string;
  URL : string;
  Username : string;
  Password : string
}.

(** [map[string]AddressBook]: the program only stores under a key and
    looks a key up, so the map is what a lookup gives. *)
Definition AddressBooks : Type := string -> option AddressBook.

Definition makeAddressBooks : AddressBooks := fun _ => None.

(** [books[key] = book]. *)
Definition storeAddressBook (books : AddressBooks) (key : string)
    (book : AddressBook) : AddressBooks :=
  fun k => if String.eqb k key then Some book else books k.

(** [NewAddressBooks] (lines 110-116). *)
Definition NewAddressBooks (addressBooks : list AddressBook) : AddressBooks :=
  fold_left (fun books book => storeAddressBook books (Name book) book)
    addressBooks makeAddressBooks.

(** The decoded reply of the server (lines 185-206); [xml.Name] is its two
    strings. *)
Record PropT : Type := mkProp { AddressData : string }.
Record Propstat : Type := mkPropstat { Propstat_Prop : PropT }.
Record Response : Type := mkResponse {
  Href : string;
  Response_Propstat : list Propstat
}.
Record MultiStatus : Type := mkMultiStatus {
  XMLName : string * string;
  Responses : list Response
}.

(** What the network and the decoder give to [getBirthdays]: the request
    cannot be built, the round trip fails, or a reply arrives with its
    status and with the outcome of decoding its body (the decoder's error
    or the document). *)
Inductive exchange : Type :=
| NewRequestFails (err : string)
| DoFails (err : string)
| Replies (StatusCode : Z) (Status : string) (decoded : string + MultiStatus).

Definition StatusMultiStatus : Z := 207.

(** The loops of lines 161-169 over the decoded document, for one
    response. *)
Definition appendBirthdays (birthdays : list Birthday) (response : Response)
    : list Birthday :=
  fold_left
    (fun birthdays propstat =>
       let vcard := AddressData (Propstat_Prop propstat) in
       match parseBirthdayVCard vcard with
       | Some birthday => List.app birthdays [birthday]
       | None => birthdays
       end)
    (Response_Propstat response) birthdays.

(** [getBirthdays] (lines 133-171): the facts, or the text of the error. *)
Definition getBirthdays (x : exchange) : list Birthday + string :=
  match x with
  | NewRequestFails err => inr ("failed to create request: " ++ err)
  | DoFails err => inr ("failed to make request: " ++ err)
  | Replies StatusCode Status decoded =>
    if negb (StatusCode =? StatusMultiStatus) then
      inr ("unexpected status: " ++ Status)
    else
      match decoded with
      | inl err => inr ("failed to parse XML response: " ++ err)
      | inr propfindResponse =>
        inl (fold_left appendBirthdays (Responses propfindResponse) [])
      end
  end.

(** The records of a decoded document, in document order. *)
Definition vcardsOf (ms : MultiStatus) : list string :=
  flat_map (fun response =>
              map (fun propstat => AddressData (Propstat_Prop propstat))
                (Response_Propstat response))
    (Responses ms).

(** What the handler does to its [http.ResponseWriter]. *)
Inductive writerCall : Type :=
| Header_Set (key value : string)
| Write (body : string).

(** The two readings the handler takes from the request. *)
Record Request : Type := mkRequest {
  FormValue : string -> string;
  PathValue : string -> string
}.

Section Server.

Variable Date_String : date.Date -> string.
(** [date.Today()]. *)
Variable today : date.Date.
(** The exchange with the server of an address book. *)
Variable roundTrip : AddressBook -> exchange.
(** The error [w.Write] returns for a body, if any. *)
Variable writeError : string -> option string.

(** [getBirtdaysAndGenerateIcs] (lines 125-131). *)
Definition getBirtdaysAndGenerateIcs (book : AddressBook) : string + string :=
  match getBirthdays (roundTrip book) with
  | inr err => inr ("failed to get birthdays: " ++ err)
  | inl birthdays => inl (generateBirthdayIcs Date_String birthdays today)
  end.

(** The function [Handler] wraps (lines 85-105): the calls on the writer
    and the error returned. *)
Definition Handler (addressBooks : AddressBooks) (apiKey : string)
    (r : Request) : list writerCall * option string :=
  let key := FormValue r "apiKey" in
  if negb (String.eqb key apiKey) then ([], Some "invalid api key")
  else
    let name := PathValue r "addressBook" in
    match addressBooks name with
    | None => ([], Some ("address book " ++ name ++ " not found"))
    | Some book =>
      match getBirtdaysAndGenerateIcs book with
      | inr err => ([], Some ("failed to get birthdays: " ++ err))
      | inl calendar =>
        ([Header_Set "Content-Type" "text/calendar; charset=utf-8";
          Header_Set "Content-Disposition"
            ("filename=" ++ name ++ "-birthdays.ics");
          Write calendar],
         writeError calendar)
      end
    end.

End Server.

(** An address book, a request for it and the reply of its server, to run
    the handler with. *)
Definition book_family : AddressBook :=
  mkAddressBook "family" "https://dav.example.org/family/" "jane" "secret".

Definition request_family (key : string) : Request :=
  mkRequest (fun field => if String.eqb field "apiKey" then key else EmptyString)
            (fun field => if String.eqb field "addressBook" then "family"
                          else EmptyString).

Definition reply_family : exchange :=
  Replies 207 "207 Multi-Status"
    (inr (mkMultiStatus ("DAV:", "multistatus")
            [mkResponse "/family/1.vcf"
               [mkPropstat (mkProp ("FN:Jane Doe" ++ CRLF ++ "BDAY:20030615"
                                    ++ CRLF))];
             mkResponse "/family/2.vcf"
               [mkPropstat (mkProp ("FN:No Birthday" ++ CRLF))]])).

(** * Properties *)

(** ** The library functions on sample inputs *)

Example TrimSpace_ascii :
  strings.TrimSpace ("  BDAY:2003-06-15 " ++ CRLF) = "BDAY:2003-06-15".
Proof. vm_compute. reflexivity. Qed.

(** U+00A0 in front, U+2003 behind. *)
Example TrimSpace_unicode :
  strings.TrimSpace (chr 194 ++ chr 160 ++ "FN:Jane Doe"
                     ++ chr 226 ++ chr 128 ++ chr 131)
  = "FN:Jane Doe".
Proof. vm_compute. reflexivity. Qed.

Example Split_lines :
  strings.Split ("FN:Jane Doe" ++ CRLF ++ "BDAY:20030615" ++ LF) LF
  = ["FN:Jane Doe" ++ CR; "BDAY:20030615"; EmptyString].
Proof. vm_compute. reflexivity. Qed.

Example Parse_rejects_day_out_of_range :
  time.Parse "2006-01-02" "2003-02-29" = None
  /\ time.Parse "2006-01-02" "2004-02-29" = Some (time.mkTime 2004 2 29).
Proof. split; vm_compute; reflexivity. Qed.

Example Parse_rejects_other_shapes :
  time.Parse "20060102" "2003-06-15" = None
  /\ time.Parse "2006-01-02" "2003-6-15" = None
  /\ time.Parse "2006/01/02" "2003/06/15 " = None
  /\ time.Parse "20060102" "20031315" = None.
Proof. repeat split; vm_compute; reflexivity. Qed.

Example name_precedence :
  parseBirthdayVCard
    ("N:Doe;Jane;;;" ++ LF ++ "FN:Jane Doe" ++ LF ++ "UID:abc-1" ++ LF
     ++ "BDAY;VALUE=date:2003/06/15")
  = Some (mkBirthday "abc-1" (date.mkDate 2003 6 15) "Jane Doe").
Proof. vm_compute. reflexivity. Qed.

(** ** The line loop *)

Lemma tryFormats_default (fs : list string) (v : string)
    (cur : option time.Time) :
  tryFormats fs v cur =
  match tryFormats fs v None with
  | Some d => Some d
  | None => cur
  end.
Proof.
  induction fs as [|f fs IH]; simpl; [reflexivity|].
  destruct (time.Parse f v); [reflexivity|exact IH].
Qed.

(** What one round does to each local. *)
Lemma processLine_birthdayDate (st : locals) (line : string) :
  birthdayDate (processLine st line) =
  match lineDate line with
  | Some d => Some d
  | None => birthdayDate st
  end.
Proof.
  unfold processLine, lineDate.
  destruct (strings.HasPrefix line "BDAY"); [|reflexivity].
  destruct (is_empty (bdayStrOf line)); cbn [negb birthdayDate];
    [reflexivity|].
  apply tryFormats_default.
Qed.

Lemma processLine_stdout (st : locals) (line : string) :
  stdout (processLine st line) = stdout st
  \/ (birthdayDate st = None /\ lineDate line = None
      /\ strings.HasPrefix line "BDAY" = true
      /\ stdout (processLine st line) =
         List.app (stdout st)
           ["failed to parse birthday date: "
            ++ stripTime (bdayStrOf line) ++ LF]).
Proof.
  unfold processLine, lineDate.
  destruct (strings.HasPrefix line "BDAY"); [|left; reflexivity].
  destruct (is_empty (bdayStrOf line)); cbn [negb stdout];
    [left; reflexivity|].
  rewrite tryFormats_default.
  destruct (tryFormats formats (stripTime (bdayStrOf line)) None);
    [left; reflexivity|].
  destruct (birthdayDate st); [left; reflexivity|].
  right. repeat split; reflexivity.
Qed.

Lemma processLine_name (st : locals) (line : string) :
  name (processLine st line) =
  if strings.HasPrefix line "N:" then strings.TrimPrefix line "N:"
  else name st.
Proof.
  unfold processLine.
  destruct (strings.HasPrefix line "BDAY"); [|reflexivity].
  destruct (negb (is_empty (bdayStrOf line))); reflexivity.
Qed.

Lemma processLine_fullName (st : locals) (line : string) :
  fullName (processLine st line) =
  if strings.HasPrefix line "FN:" then strings.TrimPrefix line "FN:"
  else fullName st.
Proof.
  unfold processLine.
  destruct (strings.HasPrefix line "BDAY"); [|reflexivity].
  destruct (negb (is_empty (bdayStrOf line))); reflexivity.
Qed.

Lemma processLine_uid (st : locals) (line : string) :
  uid (processLine st line) =
  if strings.HasPrefix line "UID:" then strings.TrimPrefix line "UID:"
  else uid st.
Proof.
  unfold processLine.
  destruct (strings.HasPrefix line "BDAY"); [|reflexivity].
  destruct (negb (is_empty (bdayStrOf line))); reflexivity.
Qed.

Lemma scanLines_snoc (lines : list string) (raw : string) (st : locals) :
  scanLines (List.app lines [raw]) st = scanLine (scanLines lines st) raw.
Proof.
  unfold scanLines. rewrite fold_left_app. reflexivity.
Qed.

Lemma lastDate_snoc (lines : list string) (raw : string) :
  lastDate (List.app lines [raw]) =
  match rawDate raw with
  | Some d => Some d
  | None => lastDate lines
  end.
Proof.
  induction lines as [|x lines IH]; simpl.
  - destruct (rawDate raw); reflexivity.
  - rewrite IH. destruct (rawDate raw); reflexivity.
Qed.

(** The date after the loop: that of the last line that yields one. *)
Lemma scanLines_birthdayDate (lines : list string) (st : locals) :
  birthdayDate (scanLines lines st) =
  match lastDate lines with
  | Some d => Some d
  | None => birthdayDate st
  end.
Proof.
  induction lines as [|raw lines IH] using rev_ind; [reflexivity|].
  rewrite scanLines_snoc, lastDate_snoc. unfold scanLine.
  rewrite processLine_birthdayDate. fold (rawDate raw).
  destruct (rawDate raw); [reflexivity|exact IH].
Qed.

Lemma lastDate_some_iff (lines : list string) :
  lastDate lines <> None <->
  exists raw, In raw lines /\ rawDate raw <> None.
Proof.
  induction lines as [|x lines IH]; simpl.
  - split; [congruence|intros [raw [[] _]]].
  - destruct (lastDate lines) as [d|] eqn:E.
    + split; [|congruence]. intros _.
      destruct (proj1 IH) as [raw [Hin Hd]]; [congruence|].
      exists raw. auto.
    + split.
      * intros H. exists x. auto.
      * intros [raw [[->|Hin] Hd]]; [exact Hd|].
        exfalso. apply (proj2 IH); [|reflexivity]. exists raw. auto.
Qed.

(** The fields matched by prefix after the loop: last write wins. *)
Section Fields.

Variable prefix : string.
Variable field : locals -> string.
Hypothesis field_step : forall st line,
  field (processLine st line) =
  if strings.HasPrefix line prefix then strings.TrimPrefix line prefix
  else field st.

Lemma scanLines_field (lines : list string) (st : locals) :
  field (scanLines lines st) =
  match find (fun line => strings.HasPrefix line prefix)
             (rev (map strings.TrimSpace lines)) with
  | Some line => strings.TrimPrefix line prefix
  | None => field st
  end.
Proof.
  induction lines as [|raw lines IH] using rev_ind; [reflexivity|].
  rewrite scanLines_snoc, map_app, rev_app_distr. simpl.
  unfold scanLine. rewrite field_step.
  destruct (strings.HasPrefix (strings.TrimSpace raw) prefix);
    [reflexivity|exact IH].
Qed.

End Fields.

Lemma scanVCard_name (vcard : string) :
  name (scanVCard vcard) = fieldValue "N:" (strings.Split vcard LF).
Proof.
  unfold scanVCard, fieldValue.
  rewrite (scanLines_field "N:" name processLine_name). reflexivity.
Qed.

Lemma scanVCard_fullName (vcard : string) :
  fullName (scanVCard vcard) = fieldValue "FN:" (strings.Split vcard LF).
Proof.
  unfold scanVCard, fieldValue.
  rewrite (scanLines_field "FN:" fullName processLine_fullName). reflexivity.
Qed.

Lemma scanVCard_uid (vcard : string) :
  uid (scanVCard vcard) = fieldValue "UID:" (strings.Split vcard LF).
Proof.
  unfold scanVCard, fieldValue.
  rewrite (scanLines_field "UID:" uid processLine_uid). reflexivity.
Qed.

Lemma scanVCard_birthdayDate (vcard : string) :
  birthdayDate (scanVCard vcard) = lastDate (strings.Split vcard LF).
Proof.
  unfold scanVCard. rewrite scanLines_birthdayDate.
  destruct (lastDate (strings.Split vcard LF)); reflexivity.
Qed.

Lemma is_empty_false (s : string) : is_empty s = false <-> s <> EmptyString.
Proof. destruct s; simpl; split; congruence. Qed.

(** When the final locals give a fact. *)
Lemma result_some_iff (st : locals) :
  result st <> None <->
  birthdayDate st <> None
  /\ (name st <> EmptyString \/ fullName st <> EmptyString).
Proof.
  unfold result.
  destruct (birthdayDate st) as [t|]; [|split; [congruence|intros [H _]; congruence]].
  destruct (name st) as [|c n]; destruct (fullName st) as [|c' f]; simpl;
    split; try congruence; try (intros _; split; [congruence|]);
    try (left; congruence); try (right; congruence).
  intros [_ [H|H]]; congruence.
Qed.

(** ** Cutting the time component *)

Lemma HasPrefix_byte (c x : ascii) (s : string) :
  strings.HasPrefix (String x s) (String c EmptyString) = Ascii.eqb x c.
Proof.
  unfold strings.HasPrefix. simpl.
  destruct (ascii_dec c x) as [->|Hne].
  - rewrite Ascii.eqb_refl. destruct s; reflexivity.
  - symmetry. apply Ascii.eqb_neq. congruence.
Qed.

Lemma Index_cons (x : ascii) (s substr : string) :
  strings.Index (String x s) substr
  = if strings.HasPrefix (String x s) substr then 0
    else if strings.Index s substr <? 0 then -1
         else strings.Index s substr + 1.
Proof. reflexivity. Qed.

Lemma Index_byte_absent (c : ascii) (s : string) :
  has_byte c s = false -> strings.Index s (String c EmptyString) = -1.
Proof.
  induction s as [|x s IH]; intros H; [reflexivity|].
  simpl in H. apply orb_false_iff in H. destruct H as [Hx Hs].
  rewrite Index_cons, (HasPrefix_byte c x s), Hx, (IH Hs). reflexivity.
Qed.

Lemma Index_byte_first (c : ascii) (a b : string) :
  has_byte c a = false ->
  strings.Index (a ++ String c b) (String c EmptyString)
  = Z.of_nat (String.length a).
Proof.
  induction a as [|x a IH]; intros H.
  - cbn [append].
    rewrite Index_cons, (HasPrefix_byte c c b), Ascii.eqb_refl. reflexivity.
  - simpl in H. apply orb_false_iff in H. destruct H as [Hx Ha].
    cbn [append].
    rewrite Index_cons, (HasPrefix_byte c x (a ++ String c b)), Hx, (IH Ha).
    destruct (Z.ltb_spec (Z.of_nat (String.length a)) 0); [lia|].
    cbn [String.length]. lia.
Qed.

Lemma take_length_app (a b : string) : take (String.length a) (a ++ b) = a.
Proof.
  induction a as [|x a IH]; simpl.
  - destruct b; reflexivity.
  - rewrite IH. reflexivity.
Qed.

Lemma stripTime_cut (a b : string) :
  has_byte "T" a = false -> stripTime (a ++ "T" ++ b) = a.
Proof.
  intros H. unfold stripTime.
  change (a ++ "T" ++ b) with (a ++ String "T" b).
  rewrite (Index_byte_first "T" a b H).
  destruct (Z.eqb_spec (Z.of_nat (String.length a)) (-1)); [lia|].
  cbn [negb]. rewrite Nat2Z.id. apply take_length_app.
Qed.

Lemma stripTime_keep (v : string) :
  has_byte "T" v = false -> stripTime v = v.
Proof.
  intros H. unfold stripTime.
  rewrite (Index_byte_absent "T" v H). reflexivity.
Qed.

(** ** Claims about the extractor *)

(** C1: a birthday line with a value is cut at its first [T], and the rest
    is matched against the compact, the hyphen and the slash format in that
    order; the first format that parses gives the date and the later ones
    are not consulted.  The four records of the specification parse to
    2003-06-15, the one with a time component exactly as the one
    without. *)
Theorem C1_birthday_formats_in_priority_order :
  (forall (st : locals) (raw : string),
     strings.HasPrefix (strings.TrimSpace raw) "BDAY" = true ->
     bdayStrOf (strings.TrimSpace raw) <> EmptyString ->
     birthdayDate (scanLine st raw) =
     match time.Parse "20060102"
             (stripTime (bdayStrOf (strings.TrimSpace raw))) with
     | Some d => Some d
     | None =>
       match time.Parse "2006-01-02"
               (stripTime (bdayStrOf (strings.TrimSpace raw))) with
       | Some d => Some d
       | None =>
         match time.Parse "2006/01/02"
                 (stripTime (bdayStrOf (strings.TrimSpace raw))) with
         | Some d => Some d
         | None => birthdayDate st
         end
       end
     end)
  /\ (forall a b : string,
        has_byte "T" a = false -> stripTime (a ++ "T" ++ b) = a)
  /\ (forall v : string, has_byte "T" v = false -> stripTime v = v)
  /\ birthdayDate (scanVCard "BDAY:20030615")
     = Some (time.mkTime 2003 6 15)
  /\ birthdayDate (scanVCard "BDAY:2003-06-15")
     = Some (time.mkTime 2003 6 15)
  /\ birthdayDate (scanVCard "BDAY;VALUE=date:2003/06/15")
     = Some (time.mkTime 2003 6 15)
  /\ (forall st : locals,
        scanLine st "BDAY:20030615T000000Z" = scanLine st "BDAY:20030615")
  /\ parseBirthdayVCard ("FN:Jane Doe" ++ LF ++ "BDAY:20030615T000000Z")
     = Some (mkBirthday EmptyString (date.mkDate 2003 6 15) "Jane Doe")
  /\ parseBirthdayVCard ("FN:Jane Doe" ++ LF ++ "BDAY:20030615T000000Z")
     = parseBirthdayVCard ("FN:Jane Doe" ++ LF ++ "BDAY:20030615").
Proof.
  split; [|split; [exact stripTime_cut|split; [exact stripTime_keep|]]].
  - intros st raw Hp Hv. unfold scanLine, processLine.
    rewrite Hp. apply is_empty_false in Hv. rewrite Hv. reflexivity.
  - repeat split; try (vm_compute; reflexivity).
Qed.

Lemma C1_witness :
  birthdayDate (scanLine locals0 "  BDAY:2003-06-15T10:00:00Z ")
  = Some (time.mkTime 2003 6 15).
Proof.
  rewrite (proj1 C1_birthday_formats_in_priority_order locals0
             "  BDAY:2003-06-15T10:00:00Z ");
    [vm_compute; reflexivity|vm_compute; reflexivity|vm_compute; discriminate].
Defined.

Lemma find_all_false {A : Type} (f : A -> bool) (l : list A) :
  (forall x, In x l -> f x = false) -> find f l = None.
Proof.
  induction l as [|a l IH]; intros H; [reflexivity|].
  simpl. rewrite (H a (or_introl eq_refl)).
  apply IH. intros x Hx. apply H. right. exact Hx.
Qed.

Lemma fieldValue_absent (prefix : string) (lines : list string) :
  (forall raw, In raw lines ->
     strings.HasPrefix (strings.TrimSpace raw) prefix = false) ->
  fieldValue prefix lines = EmptyString.
Proof.
  intros H. unfold fieldValue. rewrite find_all_false; [reflexivity|].
  intros line Hin. apply in_rev, in_map_iff in Hin.
  destruct Hin as [raw [<- Hraw]]. apply H, Hraw.
Qed.

Lemma lastDate_none (lines : list string) :
  (forall raw, In raw lines -> rawDate raw = None) -> lastDate lines = None.
Proof.
  intros H. destruct (lastDate lines) as [d|] eqn:E; [|reflexivity].
  exfalso. destruct (proj1 (lastDate_some_iff lines)) as [raw [Hin Hd]];
    [congruence|]. apply Hd, H, Hin.
Qed.

Lemma parseBirthdayVCard_some_iff (vcard : string) :
  parseBirthdayVCard vcard <> None <->
  lastDate (strings.Split vcard LF) <> None
  /\ (fieldValue "N:" (strings.Split vcard LF) <> EmptyString
      \/ fieldValue "FN:" (strings.Split vcard LF) <> EmptyString).
Proof.
  unfold parseBirthdayVCard. rewrite result_some_iff.
  rewrite scanVCard_birthdayDate, scanVCard_name, scanVCard_fullName.
  reflexivity.
Qed.

(** C2: a fact is returned exactly when some line of the record yields a
    date and the formatted name or the structured name is not empty.  A
    record without any name line gives no fact, whatever its birthday lines;
    a record none of whose lines yields a date gives no fact, whatever its
    name lines, as the record with [BDAY:not-a-date] shows. *)
Theorem C2_fact_iff_date_and_name (vcard : string) :
  (parseBirthdayVCard vcard <> None <->
   (exists raw, In raw (strings.Split vcard LF) /\ rawDate raw <> None)
   /\ (fieldValue "FN:" (strings.Split vcard LF) <> EmptyString
       \/ fieldValue "N:" (strings.Split vcard LF) <> EmptyString))
  /\ ((forall raw, In raw (strings.Split vcard LF) ->
         strings.HasPrefix (strings.TrimSpace raw) "FN:" = false
         /\ strings.HasPrefix (strings.TrimSpace raw) "N:" = false) ->
      parseBirthdayVCard vcard = None)
  /\ ((forall raw, In raw (strings.Split vcard LF) -> rawDate raw = None) ->
      parseBirthdayVCard vcard = None)
  /\ parseBirthdayVCard ("FN:Jane Doe" ++ LF ++ "BDAY:not-a-date") = None
  /\ parseBirthdayVCard ("UID:42" ++ LF ++ "BDAY:20030615") = None.
Proof.
  assert (Hnone : forall o : option Birthday, ~ o <> None -> o = None).
  { intros [b|] H; [exfalso; apply H; discriminate|reflexivity]. }
  split; [|split; [|split]].
  - rewrite parseBirthdayVCard_some_iff, lastDate_some_iff. tauto.
  - intros H. apply Hnone. rewrite parseBirthdayVCard_some_iff.
    rewrite !fieldValue_absent by (intros raw Hin; apply (H raw Hin)).
    intros [_ [F|F]]; apply F; reflexivity.
  - intros H. apply Hnone. rewrite parseBirthdayVCard_some_iff.
    rewrite (lastDate_none _ H). intros [F _]. apply F. reflexivity.
  - split; vm_compute; reflexivity.
Qed.

Lemma C2_witness :
  parseBirthdayVCard ("N:Doe;Jane;;;" ++ LF ++ "X-BDAY:20030615") = None.
Proof.
  apply (proj1 (proj2 (proj2 (C2_fact_iff_date_and_name
           ("N:Doe;Jane;;;" ++ LF ++ "X-BDAY:20030615"))))).
  intros raw Hin. vm_compute in Hin.
  destruct Hin as [<-|[<-|[]]]; vm_compute; reflexivity.
Defined.

(** C4, as stated: the date would be the one the last birthday line
    yields.  On the record above the last birthday line is
    [BDAY:not-a-date], which yields no date, and yet the fact carries
    2003-06-15, the date of the earlier birthday line. *)
Lemma C4_counterexample :
  lastBirthdayLine (strings.Split vcard_two_birthday_lines LF)
  = Some "BDAY:not-a-date"
  /\ lastBirthdayLineDate (strings.Split vcard_two_birthday_lines LF) = None
  /\ option_map Date (parseBirthdayVCard vcard_two_birthday_lines)
     = Some (date.mkDate 2003 6 15)
  /\ option_map Date (parseBirthdayVCard vcard_two_birthday_lines)
     <> option_map date.FromTime
          (lastBirthdayLineDate (strings.Split vcard_two_birthday_lines LF)).
Proof.
  repeat split; try (vm_compute; reflexivity).
  vm_compute. discriminate.
Qed.

(** C4, amended: the date after the scan is that of the last line that
    parses; a line that parses replaces the date whatever was found before
    it, and the lines after it that do not parse leave it alone.  The
    fact's date is that date.  The other fields are last-write-wins on
    every matching line: each line that carries the prefix N:, FN: or UID:
    overwrites the field with what follows the prefix, be it empty, so
    after the scan each field holds the value of the last line with its
    prefix. *)
Theorem C4_last_parsed_birthday_line_wins (vcard : string) :
  birthdayDate (scanVCard vcard) = lastDate (strings.Split vcard LF)
  /\ (forall b : Birthday,
        parseBirthdayVCard vcard = Some b ->
        option_map date.FromTime (lastDate (strings.Split vcard LF))
        = Some (Date b))
  /\ (forall (st : locals) (before after : list string) (raw : string)
             (d : time.Time),
        rawDate raw = Some d ->
        (forall r, In r after -> rawDate r = None) ->
        birthdayDate (scanLines (List.app before (raw :: after)) st)
        = Some d)
  /\ (forall (st : locals) (raw : string),
        (strings.HasPrefix (strings.TrimSpace raw) "N:" = true ->
         name (scanLine st raw)
         = strings.TrimPrefix (strings.TrimSpace raw) "N:")
        /\ (strings.HasPrefix (strings.TrimSpace raw) "FN:" = true ->
            fullName (scanLine st raw)
            = strings.TrimPrefix (strings.TrimSpace raw) "FN:")
        /\ (strings.HasPrefix (strings.TrimSpace raw) "UID:" = true ->
            uid (scanLine st raw)
            = strings.TrimPrefix (strings.TrimSpace raw) "UID:"))
  /\ name (scanVCard vcard) = fieldValue "N:" (strings.Split vcard LF)
  /\ fullName (scanVCard vcard) = fieldValue "FN:" (strings.Split vcard LF)
  /\ uid (scanVCard vcard) = fieldValue "UID:" (strings.Split vcard LF).
Proof.
  split; [apply scanVCard_birthdayDate|split; [|split; [|split; [|split;
    [apply scanVCard_name|split;
      [apply scanVCard_fullName|apply scanVCard_uid]]]]]].
  - intros b. unfold parseBirthdayVCard, result.
    rewrite scanVCard_birthdayDate.
    destruct (lastDate (strings.Split vcard LF)) as [t|]; [|discriminate].
    destruct (negb (is_empty (name (scanVCard vcard)))
              || negb (is_empty (fullName (scanVCard vcard))));
      [|discriminate].
    intros H. injection H as <-. reflexivity.
  - intros st before after raw d Hd Hafter.
    unfold scanLines. rewrite fold_left_app. cbn [fold_left].
    fold (scanLines before st).
    fold (scanLines after (scanLine (scanLines before st) raw)).
    rewrite scanLines_birthdayDate, (lastDate_none _ Hafter).
    unfold scanLine. rewrite processLine_birthdayDate.
    fold (rawDate raw). rewrite Hd. reflexivity.
  - intros st raw. unfold scanLine.
    rewrite processLine_name, processLine_fullName, processLine_uid.
    repeat split; intros H; rewrite H; reflexivity.
Qed.

Lemma C4_witness :
  birthdayDate
    (scanLines ["BDAY:19990101"; "FN:Jane Doe"; "BDAY:2003-06-15";
                "BDAY:not-a-date"; "BDAY:"] locals0)
  = Some (time.mkTime 2003 6 15).
Proof.
  apply (proj1 (proj2 (proj2 (C4_last_parsed_birthday_line_wins EmptyString)))
           locals0 ["BDAY:19990101"; "FN:Jane Doe"] ["BDAY:not-a-date"; "BDAY:"]
           "BDAY:2003-06-15").
  - vm_compute. reflexivity.
  - intros r [<-|[<-|[]]]; vm_compute; reflexivity.
Defined.

(** C9: the parsed date only goes from absent to present.  Once it is
    present it stays present over any further line and over any further
    lines; a line that yields no date (a birthday line failing every format
    or without value among them) leaves date and output as they were; and
    nothing at all is printed while a date is present, since the
    diagnostic is printed only while none has been parsed. *)
Theorem C9_parsed_date_is_monotone (st : locals) (raw : string) :
  (birthdayDate st <> None -> birthdayDate (scanLine st raw) <> None)
  /\ (birthdayDate st <> None -> rawDate raw = None ->
      birthdayDate (scanLine st raw) = birthdayDate st
      /\ stdout (scanLine st raw) = stdout st)
  /\ (birthdayDate st <> None -> stdout (scanLine st raw) = stdout st)
  /\ (stdout (scanLine st raw) <> stdout st -> birthdayDate st = None)
  /\ (forall lines : list string,
        birthdayDate st <> None -> birthdayDate (scanLines lines st) <> None).
Proof.
  assert (Hout : birthdayDate st <> None ->
                 stdout (scanLine st raw) = stdout st).
  { intros H. unfold scanLine.
    destruct (processLine_stdout st (strings.TrimSpace raw))
      as [E|[E _]]; [exact E|contradiction]. }
  split; [|split; [|split; [exact Hout|split]]].
  - unfold scanLine. rewrite processLine_birthdayDate.
    destruct (lineDate (strings.TrimSpace raw)); [discriminate|auto].
  - intros H Hraw. split; [|exact (Hout H)].
    unfold scanLine. rewrite processLine_birthdayDate.
    fold (rawDate raw). rewrite Hraw. reflexivity.
  - intros H. destruct (birthdayDate st) eqn:E; [|reflexivity].
    exfalso. apply H, Hout. discriminate.
  - intros lines H. rewrite scanLines_birthdayDate.
    destruct (lastDate lines); [discriminate|exact H].
Qed.

Lemma C9_witness :
  birthdayDate (scanLine (scanVCard "BDAY:20030615") "BDAY:not-a-date")
  = Some (time.mkTime 2003 6 15)
  /\ stdout (scanLine (scanVCard "BDAY:20030615") "BDAY:not-a-date") = [].
Proof.
  destruct (proj1 (proj2 (C9_parsed_date_is_monotone
              (scanVCard "BDAY:20030615") "BDAY:not-a-date")))
    as [Hd Ho].
  - vm_compute. discriminate.
  - vm_compute. reflexivity.
  - rewrite Hd, Ho. vm_compute. split; reflexivity.
Defined.

(** ** Texts and lines *)

Lemma append_nil_r (a : string) : a ++ EmptyString = a.
Proof. induction a as [|x a IH]; simpl; [|rewrite IH]; reflexivity. Qed.

Lemma append_assoc (a b c : string) : (a ++ b) ++ c = a ++ (b ++ c).
Proof. induction a as [|x a IH]; simpl; [|rewrite IH]; reflexivity. Qed.

Lemma unlines_cons (l : string) (ls : list string) :
  unlines (l :: ls) = l ++ CRLF ++ unlines ls.
Proof. reflexivity. Qed.

Lemma unlines_app (l1 l2 : list string) :
  unlines (List.app l1 l2) = unlines l1 ++ unlines l2.
Proof.
  induction l1 as [|l l1 IH]; simpl; [reflexivity|].
  rewrite IH, !append_assoc. reflexivity.
Qed.

Lemma has_byte_app (c : ascii) (a b : string) :
  has_byte c (a ++ b) = has_byte c a || has_byte c b.
Proof.
  induction a as [|x a IH]; simpl; [reflexivity|].
  rewrite IH, orb_assoc. reflexivity.
Qed.

Lemma has_byte_take (c : ascii) (n : nat) (s : string) :
  has_byte c s = false -> has_byte c (take n s) = false.
Proof.
  revert n. induction s as [|x s IH]; intros [|n] H; try reflexivity.
  simpl in *. apply orb_false_iff in H. destruct H as [-> H].
  exact (IH n H).
Qed.

Lemma has_byte_drop (c : ascii) (n : nat) (s : string) :
  has_byte c s = false -> has_byte c (drop n s) = false.
Proof.
  revert n. induction s as [|x s IH]; intros [|n] H; try exact H.
  simpl in *. apply orb_false_iff in H. destruct H as [_ H].
  exact (IH n H).
Qed.

Lemma linesFrom_line (l cur rest : string) :
  has_byte ascii_LF l = false ->
  linesFrom cur (l ++ CRLF ++ rest)
  = (cur ++ l ++ CRLF) :: linesFrom EmptyString rest.
Proof.
  revert cur. induction l as [|x l IH]; intros cur H.
  - simpl. rewrite append_assoc. reflexivity.
  - simpl in H. apply orb_false_iff in H. destruct H as [Hx Hl].
    cbn [append linesFrom]. rewrite Hx, (IH _ Hl), append_assoc.
    reflexivity.
Qed.

Lemma linesOf_unlines (ls : list string) :
  Forall (fun l => has_byte ascii_LF l = false) ls ->
  linesOf (unlines ls) = map (fun l => l ++ CRLF) ls.
Proof.
  unfold linesOf. induction 1 as [|l ls Hl _ IH]; [reflexivity|].
  cbn [unlines map]. rewrite (linesFrom_line l EmptyString _ Hl), IH.
  reflexivity.
Qed.

Lemma endsWithCRLF_app (l : string) : endsWithCRLF (l ++ CRLF) = true.
Proof.
  induction l as [|x l IH]; [reflexivity|].
  cbn [append endsWithCRLF]. rewrite IH. apply orb_true_r.
Qed.

Lemma crlfTerminated_unlines (ls : list string) :
  Forall (fun l => has_byte ascii_LF l = false) ls ->
  crlfTerminated (unlines ls).
Proof.
  intros H. unfold crlfTerminated. rewrite (linesOf_unlines ls H).
  apply Forall_forall. intros l Hin. apply in_map_iff in Hin.
  destruct Hin as [l0 [<- _]]. apply endsWithCRLF_app.
Qed.

(** ** Decimal renderings hold digits and a sign only *)

Lemma has_LF_uint (u : Decimal.uint) :
  has_byte ascii_LF (NilEmpty.string_of_uint u) = false.
Proof. induction u; simpl; try exact IHu; reflexivity. Qed.

Lemma has_LF_uint0 (u : Decimal.uint) :
  has_byte ascii_LF (NilZero.string_of_uint u) = false.
Proof. destruct u; try reflexivity; apply (has_LF_uint (_ u)). Qed.

Lemma has_LF_verb_d (n : Z) : has_byte ascii_LF (fmt.verb_d n) = false.
Proof.
  unfold fmt.verb_d, NilZero.string_of_int.
  destruct (Z.to_int n); [|simpl]; apply has_LF_uint0.
Qed.

Lemma has_LF_zeros (n : nat) : has_byte ascii_LF (time.zeros n) = false.
Proof. induction n; simpl; [reflexivity|exact IHn]. Qed.

Lemma has_LF_appendInt (b : string) (x : Z) (width : nat) :
  has_byte ascii_LF b = false ->
  has_byte ascii_LF (time.appendInt b x width) = false.
Proof.
  intros Hb. unfold time.appendInt.
  rewrite !has_byte_app, Hb, has_LF_zeros, has_LF_uint0.
  destruct (x <? 0); reflexivity.
Qed.

Lemma Format_compact (t : time.Time) :
  time.Format t "20060102"
  = time.appendInt
      (time.appendInt (time.appendInt EmptyString (time.Year t) 4)
         (time.Month t) 2)
      (time.Day t) 2.
Proof.
  unfold time.Format. cbn [String.length time.formatLoop].
  repeat (cbn [time.formatLoop time.nextStdChunk strings.HasPrefix prefix
                 drop append];
          simpl ascii_dec).
  rewrite !append_nil_r. reflexivity.
Qed.

Lemma has_LF_Format_compact (t : time.Time) :
  has_byte ascii_LF (time.Format t "20060102") = false.
Proof.
  rewrite Format_compact. repeat apply has_LF_appendInt. reflexivity.
Qed.

Lemma has_LF_replaceLoop (n : nat) (s old new : string) :
  has_byte ascii_LF s = false -> has_byte ascii_LF new = false ->
  has_byte ascii_LF (strings.replaceLoop n s old new) = false.
Proof.
  revert s. induction n as [|n IH]; intros s Hs Hnew; [exact Hs|].
  cbn [strings.replaceLoop]. cbv zeta.
  destruct (strings.Index s old <? 0); [exact Hs|].
  rewrite !has_byte_app, Hnew, (has_byte_take _ _ _ Hs).
  apply IH; [apply has_byte_drop, Hs|exact Hnew].
Qed.

(** ** The bounded loops run to their end *)

Lemma length_drop (n : nat) (s : string) :
  String.length (drop n s) = (String.length s - n)%nat.
Proof.
  revert n. induction s as [|x s IH]; intros [|n]; simpl; auto.
Qed.

Lemma Index_empty (p : string) :
  p <> EmptyString -> strings.Index EmptyString p = -1.
Proof. destruct p; [congruence|reflexivity]. Qed.

(** [Split] gives the slice of Go's loop: more rounds than [len(s)] change
    nothing. *)
Lemma genSplit_rounds (sep : string) (n1 n2 : nat) (s : string) :
  sep <> EmptyString ->
  (String.length s <= n1)%nat -> (String.length s <= n2)%nat ->
  strings.genSplit n1 s sep = strings.genSplit n2 s sep.
Proof.
  intros Hsep. revert n2 s.
  assert (Hnil : forall n, strings.genSplit n EmptyString sep = [EmptyString]).
  { intros [|n]; [reflexivity|]. cbn [strings.genSplit]. cbv zeta.
    rewrite (Index_empty sep Hsep). reflexivity. }
  induction n1 as [|n1 IH]; intros n2 s H1 H2.
  - destruct s; [|simpl in H1; lia]. rewrite !Hnil. reflexivity.
  - destruct n2 as [|n2].
    + destruct s; [|simpl in H2; lia]. rewrite !Hnil. reflexivity.
    + cbn [strings.genSplit]. cbv zeta.
      destruct (strings.Index s sep <? 0) eqn:E; [reflexivity|].
      f_equal. destruct s as [|x s].
      { rewrite (Index_empty sep Hsep) in E. discriminate. }
      destruct sep as [|y sep]; [congruence|].
      apply IH; rewrite length_drop; cbn [String.length] in *; lia.
Qed.

Lemma Split_rounds (s sep : string) (n : nat) :
  sep <> EmptyString -> (String.length s <= n)%nat ->
  strings.genSplit n s sep = strings.Split s sep.
Proof.
  intros Hsep Hn. apply genSplit_rounds; [exact Hsep|exact Hn|apply le_n].
Qed.

Lemma length_drop_le (n : nat) (s : string) :
  (String.length (drop n s) <= String.length s)%nat.
Proof. rewrite length_drop. lia. Qed.

(** A layout element shortens the layout. *)
Lemma nextStdChunk_shorter (layout prefix suffix : string)
    (std : time.stdChunk) :
  time.nextStdChunk layout = (prefix, Some std, suffix) ->
  (String.length suffix < String.length layout)%nat.
Proof.
  revert prefix suffix.
  induction layout as [|c rest IH]; intros prefix suffix H.
  - discriminate.
  - cbn [time.nextStdChunk] in H.
    destruct (strings.HasPrefix (String c rest) "2006").
    { injection H as _ _ <-. change (drop 4 (String c rest)) with (drop 3 rest).
      cbn [String.length]. apply le_n_S. exact (length_drop_le 3 rest). }
    destruct (strings.HasPrefix (String c rest) "01").
    { injection H as _ _ <-. change (drop 2 (String c rest)) with (drop 1 rest).
      cbn [String.length]. apply le_n_S. exact (length_drop_le 1 rest). }
    destruct (strings.HasPrefix (String c rest) "02").
    { injection H as _ _ <-. change (drop 2 (String c rest)) with (drop 1 rest).
      cbn [String.length]. apply le_n_S. exact (length_drop_le 1 rest). }
    destruct (time.nextStdChunk rest) as [[p o] sfx] eqn:E.
    injection H as _ -> ->.
    specialize (IH p suffix eq_refl). cbn [String.length]. lia.
Qed.

(** [time.Parse] reaches the end of its layout: [parseLoop] gives the same
    result with any larger number of rounds, so a [None] is a parse error
    and never a loop cut short. *)
Lemma parseLoop_rounds (n1 n2 : nat) (layout value : string)
    (year month day : Z) :
  (String.length layout < n1)%nat -> (String.length layout < n2)%nat ->
  time.parseLoop n1 layout value year month day
  = time.parseLoop n2 layout value year month day.
Proof.
  revert n2 layout value year month day.
  induction n1 as [|n1 IH]; intros n2 layout value year month day H1 H2;
    [lia|].
  destruct n2 as [|n2]; [lia|].
  cbn [time.parseLoop].
  destruct (time.nextStdChunk layout) as [[prefix std] suffix] eqn:E.
  destruct (time.skip value prefix) as [value'|]; [|reflexivity].
  destruct std as [std|]; [|reflexivity].
  apply nextStdChunk_shorter in E.
  assert (R : forall v y m d,
             time.parseLoop n1 suffix v y m d
             = time.parseLoop n2 suffix v y m d)
    by (intros; apply IH; lia).
  destruct std.
  - destruct ((String.length value' <? 4)%nat || negb (time.isDigit value' 0));
      [reflexivity|].
    destruct (time.atoi (take 4 value')); [apply R|reflexivity].
  - destruct (time.getnum value' true) as [[m v]|]; [|reflexivity].
    destruct ((m <=? 0) || (12 <? m)); [reflexivity|apply R].
  - destruct (time.getnum value' true) as [[d v]|]; [|reflexivity].
    apply R.
Qed.

Lemma replaceLoop_rounds (old new : string) (n1 n2 : nat) (s : string) :
  old <> EmptyString ->
  (String.length s <= n1)%nat -> (String.length s <= n2)%nat ->
  strings.replaceLoop n1 s old new = strings.replaceLoop n2 s old new.
Proof.
  intros Hold. revert n2 s.
  induction n1 as [|n1 IH]; intros n2 s H1 H2.
  - destruct s; [|simpl in H1; lia].
    destruct n2; [reflexivity|]. cbn [strings.replaceLoop]. cbv zeta.
    rewrite (Index_empty old Hold). reflexivity.
  - destruct n2 as [|n2].
    + destruct s; [|simpl in H2; lia].
      cbn [strings.replaceLoop]. cbv zeta.
      rewrite (Index_empty old Hold). reflexivity.
    + cbn [strings.replaceLoop]. cbv zeta.
      destruct (strings.Index s old <? 0) eqn:E; [reflexivity|].
      do 2 f_equal. destruct s as [|x s].
      { rewrite (Index_empty old Hold) in E. discriminate. }
      destruct old as [|y old]; [congruence|].
      apply IH; rewrite length_drop; cbn [String.length] in *; lia.
Qed.

Lemma formatLoop_rounds (n1 n2 : nat) (b layout : string) (t : time.Time) :
  (String.length layout < n1)%nat -> (String.length layout < n2)%nat ->
  time.formatLoop n1 b layout t = time.formatLoop n2 b layout t.
Proof.
  revert n2 b layout.
  induction n1 as [|n1 IH]; intros n2 b layout H1 H2; [lia|].
  destruct n2 as [|n2]; [lia|].
  cbn [time.formatLoop].
  destruct (time.nextStdChunk layout) as [[prefix std] suffix] eqn:E.
  destruct std as [std|]; [|reflexivity].
  apply nextStdChunk_shorter in E.
  destruct std; apply IH; lia.
Qed.

(** A rune of a non-empty string is one to four bytes wide. *)
Lemma DecodeRuneInString_size (c : ascii) (s : string) :
  (1 <= snd (utf8.DecodeRuneInString (String c s)) <= 4)%nat.
Proof.
  unfold utf8.DecodeRuneInString.
  destruct (utf8.first (byte_of c)); cbn [snd]; try lia.
  repeat match goal with
         | |- context [if ?b then _ else _] => destruct b
         end; cbn [snd]; lia.
Qed.

Lemma indexFunc_rounds (f : Z -> bool) (truth : bool) (n1 n2 i : nat)
    (s : string) :
  (String.length s <= n1)%nat -> (String.length s <= n2)%nat ->
  strings.indexFunc_from n1 i s f truth
  = strings.indexFunc_from n2 i s f truth.
Proof.
  revert n2 i s.
  induction n1 as [|n1 IH]; intros n2 i s H1 H2.
  - destruct s; [|simpl in H1; lia]. destruct n2; reflexivity.
  - destruct n2 as [|n2].
    + destruct s; [reflexivity|simpl in H2; lia].
    + cbn [strings.indexFunc_from].
      destruct s as [|c s]; [reflexivity|]. cbn [is_empty].
      pose proof (DecodeRuneInString_size c s) as Hsz.
      destruct (utf8.DecodeRuneInString (String c s)) as [r size].
      cbn [snd] in Hsz.
      destruct (Bool.eqb (f r) truth); [reflexivity|].
      apply IH; rewrite length_drop; cbn [String.length] in *; lia.
Qed.

Lemma length_take (n : nat) (s : string) :
  String.length (take n s) = Nat.min n (String.length s).
Proof.
  revert n. induction s as [|x s IH]; intros [|n]; simpl; auto.
Qed.

Lemma back_to_start_le (fuel : nat) (s : string) (start lim : Z) :
  utf8.back_to_start fuel s start lim <= start.
Proof.
  revert start. induction fuel as [|fuel IH]; intros start; simpl; [lia|].
  destruct (start <? lim); [lia|].
  destruct (utf8.RuneStart _); [lia|].
  specialize (IH (start - 1)). lia.
Qed.

Lemma DecodeLastRuneInString_size (s : string) :
  s <> EmptyString ->
  (1 <= snd (utf8.DecodeLastRuneInString s) <= String.length s)%nat.
Proof.
  intros Hs. assert (Hlen : (1 <= String.length s)%nat).
  { destruct s; [congruence|simpl; lia]. }
  unfold utf8.DecodeLastRuneInString.
  destruct (Z.eqb_spec (Z.of_nat (String.length s)) 0); [lia|].
  destruct (_ <? utf8.RuneSelf); cbn [snd]; [lia|].
  set (start := Z.max 0 _).
  assert (Hstart : 0 <= start < Z.of_nat (String.length s)).
  { subst start.
    pose proof (back_to_start_le (S utf8.UTFMax) s
                  (Z.of_nat (String.length s) - 1 - 1)
                  (Z.max 0 (Z.of_nat (String.length s)
                            - Z.of_nat utf8.UTFMax))).
    lia. }
  destruct (utf8.DecodeRuneInString (drop (Z.to_nat start) s))
    as [r size].
  destruct (Z.eqb_spec (start + Z.of_nat size) (Z.of_nat (String.length s)));
    cbn [snd]; lia.
Qed.

Lemma lastIndexFunc_rounds (f : Z -> bool) (truth : bool) (n1 n2 i : nat)
    (s : string) :
  (i <= String.length s)%nat -> (i <= n1)%nat -> (i <= n2)%nat ->
  strings.lastIndexFunc_from n1 i s f truth
  = strings.lastIndexFunc_from n2 i s f truth.
Proof.
  revert n2 i.
  induction n1 as [|n1 IH]; intros n2 i Hi H1 H2.
  - assert (i = 0%nat) as -> by lia. destruct n2; reflexivity.
  - destruct n2 as [|n2].
    + assert (i = 0%nat) as -> by lia. reflexivity.
    + cbn [strings.lastIndexFunc_from].
      destruct (Nat.eqb_spec i 0) as [|Hi0]; [reflexivity|].
      assert (Hne : take i s <> EmptyString).
      { intros E. apply (f_equal String.length) in E.
        rewrite length_take in E. simpl in E. lia. }
      pose proof (DecodeLastRuneInString_size (take i s) Hne) as Hsz.
      rewrite length_take in Hsz.
      destruct (utf8.DecodeLastRuneInString (take i s)) as [r size].
      cbn [snd] in Hsz.
      destruct (Bool.eqb (f r) truth); [reflexivity|].
      apply IH; lia.
Qed.

(** ** What the extractor puts into a display name *)

Lemma Index_byte_neg (c : ascii) (s : string) :
  strings.Index s (String c EmptyString) < 0 -> has_byte c s = false.
Proof.
  induction s as [|x s IH]; [reflexivity|].
  rewrite Index_cons, (HasPrefix_byte c x s). cbn [has_byte].
  destruct (Ascii.eqb x c); [lia|].
  destruct (Z.ltb_spec (strings.Index s (String c EmptyString)) 0) as [Hlt|Hge];
    [intros _; apply IH, Hlt|lia].
Qed.

Lemma Index_byte_take (c : ascii) (s : string) :
  0 <= strings.Index s (String c EmptyString) ->
  has_byte c (take (Z.to_nat (strings.Index s (String c EmptyString))) s)
  = false.
Proof.
  induction s as [|x s IH]; [reflexivity|].
  rewrite Index_cons, (HasPrefix_byte c x s).
  destruct (Ascii.eqb x c) eqn:Ex; [reflexivity|].
  destruct (Z.ltb_spec (strings.Index s (String c EmptyString)) 0) as [Hlt|Hge];
    [lia|].
  intros _.
  replace (Z.to_nat (strings.Index s (String c EmptyString) + 1))
    with (S (Z.to_nat (strings.Index s (String c EmptyString)))) by lia.
  cbn [take has_byte]. rewrite Ex. apply IH, Hge.
Qed.

(** No piece of a split at a byte holds that byte. *)
Lemma genSplit_byte_free (c : ascii) (n : nat) (s : string) :
  (String.length s <= n)%nat ->
  Forall (fun piece => has_byte c piece = false)
    (strings.genSplit n s (String c EmptyString)).
Proof.
  revert s. induction n as [|n IH]; intros s Hn.
  - destruct s; [|simpl in Hn; lia]. repeat constructor.
  - cbn [strings.genSplit]. cbv zeta.
    destruct (Z.ltb_spec (strings.Index s (String c EmptyString)) 0)
      as [Hlt|Hge].
    + repeat constructor. apply Index_byte_neg, Hlt.
    + constructor; [apply Index_byte_take, Hge|].
      apply IH. rewrite length_drop.
      destruct s; [simpl in Hge; lia|].
      cbn [String.length] in *. lia.
Qed.

Lemma TrimSpace_byte_free (c : ascii) (s : string) :
  has_byte c s = false -> has_byte c (strings.TrimSpace s) = false.
Proof.
  intros H. unfold strings.TrimSpace, strings.TrimFunc, strings.TrimRightFunc.
  apply has_byte_take. unfold strings.TrimLeftFunc.
  destruct (_ =? -1); [reflexivity|apply has_byte_drop, H].
Qed.

Lemma TrimPrefix_byte_free (c : ascii) (s p : string) :
  has_byte c s = false -> has_byte c (strings.TrimPrefix s p) = false.
Proof.
  intros H. unfold strings.TrimPrefix.
  destruct (strings.HasPrefix s p); [apply has_byte_drop, H|exact H].
Qed.

Lemma fieldValue_LF_free (prefix vcard : string) :
  has_byte ascii_LF (fieldValue prefix (strings.Split vcard LF)) = false.
Proof.
  unfold fieldValue.
  destruct (find _ _) as [line|] eqn:E; [|reflexivity].
  apply find_some in E. destruct E as [Hin _].
  apply in_rev, in_map_iff in Hin. destruct Hin as [raw [<- Hraw]].
  apply TrimPrefix_byte_free, TrimSpace_byte_free.
  pose proof (genSplit_byte_free ascii_LF (String.length vcard) vcard
                (le_n _)) as HF.
  rewrite Forall_forall in HF. apply HF, Hraw.
Qed.

(** A display name that comes out of the extractor holds no line feed: the
    record was split at the line feeds. *)
Lemma parseBirthdayVCard_name_LF_free (vcard : string) (b : Birthday) :
  parseBirthdayVCard vcard = Some b ->
  has_byte ascii_LF (FullName b) = false.
Proof.
  unfold parseBirthdayVCard, result.
  destruct (birthdayDate (scanVCard vcard)); [|discriminate].
  destruct (negb (is_empty (name (scanVCard vcard)))
            || negb (is_empty (fullName (scanVCard vcard))));
    [|discriminate].
  intros H. injection H as <-. cbn [FullName].
  rewrite scanVCard_name, scanVCard_fullName.
  destruct (is_empty _); apply fieldValue_LF_free.
Qed.

(** ** The serializer *)

Section SerializerProperties.

Variable Date_String : date.Date -> string.

Lemma writeEvent_lines (sb : strings.Builder) (b : Birthday) :
  writeEvent Date_String sb b = sb ++ unlines (eventLines Date_String b).
Proof.
  unfold writeEvent, strings.WriteString, eventLines, eventFields.
  cbn [List.app unlines date.ToStdTime time.Year].
  rewrite !append_assoc. reflexivity.
Qed.

Lemma fold_writeEvent (bs : list Birthday) (sb : strings.Builder) :
  fold_left (writeEvent Date_String) bs sb
  = sb ++ unlines (flat_map (eventLines Date_String) bs).
Proof.
  revert sb. induction bs as [|b bs IH]; intros sb; cbn [fold_left flat_map].
  - rewrite append_nil_r. reflexivity.
  - rewrite IH, writeEvent_lines, unlines_app, append_assoc. reflexivity.
Qed.

(** The document as a list of lines. *)
Lemma generateBirthdayIcs_lines (bs : list Birthday) (today : date.Date) :
  generateBirthdayIcs Date_String bs today
  = unlines (List.app headerLines
               (List.app (flat_map (eventLines Date_String) bs) footerLines)).
Proof.
  unfold generateBirthdayIcs, strings.WriteString.
  rewrite fold_writeEvent, !unlines_app.
  cbn [headerLines footerLines unlines].
  rewrite !append_assoc. reflexivity.
Qed.

Lemma eventLines_no_LF (b : Birthday) :
  has_byte ascii_LF (FullName b) = false ->
  has_byte ascii_LF (Date_String (Date b)) = false ->
  Forall (fun l => has_byte ascii_LF l = false) (eventLines Date_String b).
Proof.
  intros Hn Hd. unfold eventLines, eventFields. cbn [List.app].
  repeat constructor; rewrite ?has_byte_app, ?Hn, ?Hd, ?has_LF_verb_d,
    ?has_LF_Format_compact; try reflexivity.
  unfold strings.ReplaceAll. rewrite has_LF_replaceLoop; auto.
Qed.

(** C3: the document is the four header lines, then for each fact, in the
    order of the input and once per occurrence, its event block of six
    fields between the opening and the closing line, then the footer
    line. *)
Theorem C3_header_events_in_order_footer (bs : list Birthday)
    (today : date.Date) :
  generateBirthdayIcs Date_String bs today
  = unlines headerLines
    ++ unlines (flat_map (eventLines Date_String) bs)
    ++ unlines footerLines
  /\ List.length headerLines = 4%nat
  /\ List.length footerLines = 1%nat
  /\ (forall b : Birthday,
        eventLines Date_String b
        = List.app ("BEGIN:VEVENT" :: eventFields Date_String b) ["END:VEVENT"]
        /\ List.length (eventFields Date_String b) = 6%nat)
  /\ (forall A B C : Birthday,
        generateBirthdayIcs Date_String [A; B; C] today
        = unlines headerLines
          ++ unlines (eventLines Date_String A)
          ++ unlines (eventLines Date_String B)
          ++ unlines (eventLines Date_String C)
          ++ unlines footerLines).
Proof.
  split; [|repeat split].
  - rewrite generateBirthdayIcs_lines, !unlines_app. reflexivity.
  - intros A B C. rewrite generateBirthdayIcs_lines.
    cbn [flat_map]. rewrite app_nil_r, !unlines_app, !append_assoc.
    reflexivity.
Qed.

(** C5, amended: when no display name holds a line feed (and the rendering
    of no date of the list does), every line of the document ends with
    CR LF. *)
Theorem C5_lines_end_with_CRLF (bs : list Birthday) (today : date.Date) :
  Forall (fun b => has_byte ascii_LF (FullName b) = false
                   /\ has_byte ascii_LF (Date_String (Date b)) = false) bs ->
  crlfTerminated (generateBirthdayIcs Date_String bs today).
Proof.
  intros H. rewrite generateBirthdayIcs_lines.
  apply crlfTerminated_unlines.
  apply Forall_app. split; [repeat constructor|].
  apply Forall_app. split; [|repeat constructor].
  induction H as [|b bs [Hn Hd] _ IH]; cbn [flat_map]; [constructor|].
  apply Forall_app. split; [apply eventLines_no_LF; assumption|exact IH].
Qed.

(** C6: the serializer returns a document for every list, the header lines
    and the footer line around the event blocks; for the empty list the
    document is the four header lines and the footer line, and has no other
    line. *)
Theorem C6_serializer_always_returns (bs : list Birthday)
    (today : date.Date) :
  (exists events : list string,
     generateBirthdayIcs Date_String bs today
     = unlines (List.app headerLines (List.app events footerLines))
     /\ List.length events = (8 * List.length bs)%nat)
  /\ generateBirthdayIcs Date_String [] today
     = "BEGIN:VCALENDAR" ++ CRLF ++ "VERSION:2.0" ++ CRLF
       ++ "PRODID:-//CardDAV Birthdays//EN" ++ CRLF
       ++ "CALSCALE:GREGORIAN" ++ CRLF ++ "END:VCALENDAR" ++ CRLF
  /\ linesOf (generateBirthdayIcs Date_String [] today)
     = map (fun l => l ++ CRLF) (List.app headerLines footerLines).
Proof.
  split; [|split; vm_compute; reflexivity].
  exists (flat_map (eventLines Date_String) bs).
  split; [apply generateBirthdayIcs_lines|].
  induction bs as [|b bs IH]; [reflexivity|].
  cbn [flat_map]. rewrite length_app, IH. cbn [eventLines eventFields].
  simpl List.length. lia.
Qed.

(** C7: the event of the fact named Jane Doe and dated 2003-06-15 has the
    identifier field JaneDoe-birthday-2003 and the date-only start field
    20030615, whatever its identifier and the reference date. *)
Theorem C7_event_of_Jane_Doe (u : string) (today : date.Date) :
  generateBirthdayIcs Date_String
    [mkBirthday u (date.mkDate 2003 6 15) "Jane Doe"] today
  = unlines
      ["BEGIN:VCALENDAR"; "VERSION:2.0"; "PRODID:-//CardDAV Birthdays//EN";
       "CALSCALE:GREGORIAN";
       "BEGIN:VEVENT";
       "UID:JaneDoe-birthday-2003";
       "DTSTART;VALUE=DATE:20030615";
       "RRULE:FREQ=YEARLY";
       "SUMMARY:Jane Doe's Birthday";
       "DESCRIPTION:Jane Doe born on "
         ++ Date_String (date.mkDate 2003 6 15);
       "TRANSP:TRANSPARENT";
       "END:VEVENT";
       "END:VCALENDAR"].
Proof.
  rewrite generateBirthdayIcs_lines. vm_compute. reflexivity.
Qed.

(** C8: the reference date has no influence on the document. *)
Theorem C8_reference_date_is_ignored (bs : list Birthday)
    (d1 d2 : date.Date) :
  generateBirthdayIcs Date_String bs d1
  = generateBirthdayIcs Date_String bs d2.
Proof. reflexivity. Qed.

(** C10: two lists of the same length that agree, position by position, on
    display name and date give the same document, whatever their
    identifiers. *)
Theorem C10_identifier_is_not_serialized (bs1 bs2 : list Birthday)
    (today : date.Date) :
  Forall2 (fun b1 b2 => FullName b1 = FullName b2 /\ Date b1 = Date b2)
    bs1 bs2 ->
  generateBirthdayIcs Date_String bs1 today
  = generateBirthdayIcs Date_String bs2 today.
Proof.
  intros H. rewrite !generateBirthdayIcs_lines. do 3 f_equal.
  induction H as [|b1 b2 bs1 bs2 [Hn Hd] _ IH]; [reflexivity|].
  cbn [flat_map]. rewrite IH. f_equal.
  unfold eventLines, eventFields. rewrite Hn, Hd. reflexivity.
Qed.

(** Along the pipeline of the program the display names are free of line
    feeds, so the documents it serves have all their lines closed by
    CR LF as soon as the rendering of dates has no line feed. *)
Lemma collectBirthdays_names_LF_free (vcards : list string) :
  Forall (fun b => has_byte ascii_LF (FullName b) = false)
    (collectBirthdays vcards).
Proof.
  induction vcards as [|vcard rest IH]; cbn [collectBirthdays];
    [constructor|].
  destruct (parseBirthdayVCard vcard) as [b|] eqn:E; [|exact IH].
  constructor; [exact (parseBirthdayVCard_name_LF_free vcard b E)|exact IH].
Qed.

Lemma served_document_crlfTerminated (vcards : list string)
    (today : date.Date) :
  (forall d, has_byte ascii_LF (Date_String d) = false) ->
  crlfTerminated
    (generateBirthdayIcs Date_String (collectBirthdays vcards) today).
Proof.
  intros HD. rewrite generateBirthdayIcs_lines.
  apply crlfTerminated_unlines.
  apply Forall_app. split; [repeat constructor|].
  apply Forall_app. split; [|repeat constructor].
  pose proof (collectBirthdays_names_LF_free vcards) as H.
  induction H as [|b bs Hn _ IH]; cbn [flat_map]; [constructor|].
  apply Forall_app. split; [apply eventLines_no_LF; auto|exact IH].
Qed.

End SerializerProperties.

(** C5, as stated, fails on a display name that holds a line feed, however
    dates are rendered: the identifier line of the event is cut after
    [UID:Jane], and that line ends with a bare line feed. *)
Lemma C5_counterexample :
  ~ exists Date_String : date.Date -> string,
      crlfTerminated
        (generateBirthdayIcs Date_String [birthday_with_line_feed]
           (date.mkDate 2024 1 1)).
Proof.
  intros [DS H]. unfold crlfTerminated in H.
  rewrite Forall_forall in H.
  specialize (H ("UID:Jane" ++ LF)).
  assert (E : endsWithCRLF ("UID:Jane" ++ LF) = false) by reflexivity.
  rewrite H in E; [discriminate|].
  rewrite generateBirthdayIcs_lines.
  unfold linesOf, headerLines. cbn [List.app flat_map eventLines].
  do 5 (rewrite unlines_cons, linesFrom_line by reflexivity; right).
  vm_compute. left. reflexivity.
Qed.

Lemma C5_witness :
  crlfTerminated
    (generateBirthdayIcs iso_date
       [mkBirthday "uid-1" (date.mkDate 2003 6 15) "Jane Doe";
        mkBirthday "uid-2" (date.mkDate 1987 12 1) "John Q. Public"]
       (date.mkDate 2024 1 1)).
Proof.
  apply (C5_lines_end_with_CRLF iso_date).
  repeat constructor; vm_compute; reflexivity.
Defined.

Lemma C10_witness :
  generateBirthdayIcs iso_date
    [mkBirthday "uid-1" (date.mkDate 2003 6 15) "Jane Doe"]
    (date.mkDate 2024 1 1)
  = generateBirthdayIcs iso_date
      [mkBirthday "another-uid" (date.mkDate 2003 6 15) "Jane Doe"]
      (date.mkDate 2024 1 1).
Proof.
  apply (C10_identifier_is_not_serialized iso_date).
  repeat constructor.
Defined.

(** * More properties of the program *)

(** ** The three date formats *)

Lemma parseLoop_step (fuel : nat) (layout value : string) (year month day : Z) :
  time.parseLoop (S fuel) layout value year month day =
  let '(prefix, std, suffix) := time.nextStdChunk layout in
  match time.skip value prefix with
  | None => None
  | Some value =>
    match std with
    | None => if is_empty value then Some (year, month, day) else None
    | Some time.stdLongYear =>
      if (String.length value <? 4)%nat || negb (time.isDigit value 0) then None
      else
        match time.atoi (take 4 value) with
        | None => None
        | Some year => time.parseLoop fuel suffix (drop 4 value) year month day
        end
    | Some time.stdZeroMonth =>
      match time.getnum value true with
      | None => None
      | Some (month, value) =>
        if (month <=? 0) || (12 <? month) then None
        else time.parseLoop fuel suffix value year month day
      end
    | Some time.stdZeroDay =>
      match time.getnum value true with
      | None => None
      | Some (day, value) => time.parseLoop fuel suffix value year month day
      end
    end
  end.
Proof. reflexivity. Qed.

Lemma isDigitChar_cases (c : ascii) :
  isDigitChar c = true ->
  In c ["0"; "1"; "2"; "3"; "4"; "5"; "6"; "7"; "8"; "9"]%char.
Proof.
  destruct c as [[] [] [] [] [] [] [] []]; vm_compute; intros H;
    try discriminate; tauto.
Qed.

Lemma getnum_fixed_inv (s rest : string) (n : Z) :
  time.getnum s true = Some (n, rest) ->
  exists a b, s = String a (String b rest)
    /\ isDigitChar a = true /\ isDigitChar b = true /\ n = number2 a b.
Proof.
  unfold time.getnum, time.isDigit, byte_at.
  destruct s as [|a [|b s]]; cbn [String.get negb].
  - discriminate.
  - fold (isDigitChar a).
    destruct (isDigitChar a); cbn [negb]; [|discriminate].
    change ((48 <=? -1) && (-1 <=? 57)) with false. discriminate.
  - fold (isDigitChar a). fold (isDigitChar b).
    destruct (isDigitChar a) eqn:Ea; cbn [negb]; [|discriminate].
    destruct (isDigitChar b) eqn:Eb; cbn [negb]; [|discriminate].
    intros H. injection H as <- <-. exists a, b. auto.
Qed.

Lemma getnum_fixed_digits (a b : ascii) (rest : string) :
  isDigitChar a = true -> isDigitChar b = true ->
  time.getnum (String a (String b rest)) true = Some (number2 a b, rest).
Proof.
  intros Ha Hb. unfold time.getnum, time.isDigit, byte_at.
  cbn [String.get]. fold (isDigitChar a). fold (isDigitChar b).
  rewrite Ha, Hb. reflexivity.
Qed.

Lemma digit_not_sign (a : ascii) :
  isDigitChar a = true ->
  Ascii.eqb a "-" = false /\ Ascii.eqb a "+" = false.
Proof.
  intros H. apply isDigitChar_cases in H.
  repeat (destruct H as [<-|H]; [split; reflexivity|]). destruct H.
Qed.

Lemma digitVal_range (a : ascii) :
  isDigitChar a = true -> 0 <= digitVal a <= 9.
Proof.
  unfold isDigitChar, digitVal. intros H.
  apply andb_true_iff in H. destruct H as [H1 H2].
  apply Z.leb_le in H1, H2. lia.
Qed.

Lemma leadingInt_step (x : Z) (c : ascii) (s : string) :
  time.leadingInt x (String c s) =
  if isDigitChar c then time.leadingInt (x * 10 + digitVal c) s
  else (x, String c s).
Proof. reflexivity. Qed.

Lemma atoi_four_digits (a b c d : ascii) :
  isDigitChar a = true -> isDigitChar b = true ->
  isDigitChar c = true -> isDigitChar d = true ->
  time.atoi (String a (String b (String c (String d EmptyString))))
  = Some (number4 a b c d).
Proof.
  intros Ha Hb Hc Hd. unfold time.atoi.
  destruct (digit_not_sign a Ha) as [Hm Hp].
  rewrite (HasPrefix_byte "-" a), (HasPrefix_byte "+" a), Hm, Hp.
  cbn [orb]. rewrite !leadingInt_step, Ha, Hb, Hc, Hd.
  cbn [time.leadingInt is_empty]. f_equal. unfold number4. lia.
Qed.

Lemma atoi_four_inv (a b c d : ascii) (y : Z) :
  isDigitChar a = true ->
  time.atoi (String a (String b (String c (String d EmptyString)))) = Some y ->
  isDigitChar b = true /\ isDigitChar c = true /\ isDigitChar d = true
  /\ y = number4 a b c d.
Proof.
  intros Ha. unfold time.atoi.
  destruct (digit_not_sign a Ha) as [Hm Hp].
  rewrite (HasPrefix_byte "-" a), (HasPrefix_byte "+" a), Hm, Hp.
  cbn [orb]. rewrite !leadingInt_step, Ha.
  destruct (isDigitChar b); [|discriminate].
  destruct (isDigitChar c); [|discriminate].
  destruct (isDigitChar d); [|discriminate].
  cbn [time.leadingInt is_empty]. intros H. injection H as <-.
  repeat split. unfold number4. lia.
Qed.

Lemma skip_nil (value : string) : time.skip value EmptyString = Some value.
Proof. destruct value; reflexivity. Qed.

Lemma skip_app (prefix rest : string) :
  time.skip (prefix ++ rest) prefix = Some rest.
Proof.
  induction prefix as [|p prefix IH]; cbn [append time.skip];
    [apply skip_nil|]. rewrite Ascii.eqb_refl. exact IH.
Qed.

Lemma skip_inv (prefix value rest : string) :
  time.skip value prefix = Some rest -> value = prefix ++ rest.
Proof.
  revert value. induction prefix as [|p prefix IH]; intros value H.
  - rewrite skip_nil in H. injection H as <-. reflexivity.
  - destruct value as [|v value]; [discriminate|]. cbn [time.skip] in H.
    destruct (Ascii.eqb_spec v p) as [->|]; [|discriminate].
    cbn [append]. f_equal. apply IH, H.
Qed.

(** The element loop on a layout of year, month and day: what it accepts
    and what it reads. *)
Section ThreeElements.

Variables L1 L2 L3 sep : string.
Hypothesis chunk1 :
  time.nextStdChunk L1 = (EmptyString, Some time.stdLongYear, L2).
Hypothesis chunk2 : time.nextStdChunk L2 = (sep, Some time.stdZeroMonth, L3).
Hypothesis chunk3 :
  time.nextStdChunk L3 = (sep, Some time.stdZeroDay, EmptyString).

Lemma parseLoop_three_inv (v : string) (n : nat) (y0 m0 d0 y m d : Z) :
  time.parseLoop (S (S (S (S n)))) L1 v y0 m0 d0 = Some (y, m, d) ->
  exists y1 y2 y3 y4 m1 m2 d1 d2,
    v = dateText sep y1 y2 y3 y4 m1 m2 d1 d2
    /\ Forall (fun c => isDigitChar c = true) [y1; y2; y3; y4; m1; m2; d1; d2]
    /\ y = number4 y1 y2 y3 y4 /\ m = number2 m1 m2 /\ d = number2 d1 d2
    /\ 1 <= m <= 12.
Proof.
  intros H.
  rewrite parseLoop_step, chunk1, skip_nil in H.
  destruct ((String.length v <? 4)%nat || negb (time.isDigit v 0)) eqn:Hlen;
    [discriminate|].
  destruct (time.atoi (take 4 v)) as [y'|] eqn:Hy; [|discriminate].
  rewrite parseLoop_step, chunk2 in H.
  destruct (time.skip (drop 4 v) sep) as [v1|] eqn:Hs1; [|discriminate].
  destruct (time.getnum v1 true) as [[m' v2]|] eqn:Hm; [|discriminate].
  destruct ((m' <=? 0) || (12 <? m')) eqn:Hr; [discriminate|].
  rewrite parseLoop_step, chunk3 in H.
  destruct (time.skip v2 sep) as [v3|] eqn:Hs2; [|discriminate].
  destruct (time.getnum v3 true) as [[d' v4]|] eqn:Hd; [|discriminate].
  assert (H' : (if is_empty v4 then Some (y', m', d') else None)
               = Some (y, m, d)).
  { destruct n; [cbn [time.parseLoop] in H|rewrite parseLoop_step in H];
      cbn [time.nextStdChunk] in H; rewrite skip_nil in H; exact H. }
  clear H. destruct v4; [|discriminate]. injection H' as -> -> ->.
  apply orb_false_iff in Hlen. destruct Hlen as [Hlen Hdig].
  destruct v as [|y1 [|y2 [|y3 [|y4 v]]]]; try discriminate.
  apply negb_false_iff in Hdig.
  change (time.isDigit (String y1 (String y2 (String y3 (String y4 v)))) 0)
    with (isDigitChar y1) in Hdig.
  change (take 4 (String y1 (String y2 (String y3 (String y4 v)))))
    with (String y1 (String y2 (String y3 (String y4 EmptyString)))) in Hy.
  change (drop 4 (String y1 (String y2 (String y3 (String y4 v))))) with v
    in Hs1.
  destruct (atoi_four_inv _ _ _ _ _ Hdig Hy) as [H2 [H3 [H4 ->]]].
  apply skip_inv in Hs1. apply skip_inv in Hs2.
  destruct (getnum_fixed_inv _ _ _ Hm) as [m1 [m2 [-> [Hm1 [Hm2 ->]]]]].
  destruct (getnum_fixed_inv _ _ _ Hd) as [d1 [d2 [-> [Hd1 [Hd2 ->]]]]].
  subst v v2.
  exists y1, y2, y3, y4, m1, m2, d1, d2.
  apply orb_false_iff in Hr.
  repeat split; try reflexivity; try lia.
  repeat constructor; assumption.
Qed.

Lemma parseLoop_three_digits (n : nat) (y0 m0 d0 : Z)
    (y1 y2 y3 y4 m1 m2 d1 d2 : ascii) :
  Forall (fun c => isDigitChar c = true) [y1; y2; y3; y4; m1; m2; d1; d2] ->
  1 <= number2 m1 m2 <= 12 ->
  time.parseLoop (S (S (S (S n)))) L1
    (dateText sep y1 y2 y3 y4 m1 m2 d1 d2) y0 m0 d0
  = Some (number4 y1 y2 y3 y4, number2 m1 m2, number2 d1 d2).
Proof.
  intros HF Hm.
  repeat match goal with
         | H : Forall _ (_ :: _) |- _ => inversion H; clear H; subst
         end.
  unfold dateText.
  rewrite parseLoop_step, chunk1, skip_nil.
  cbn [String.length Nat.ltb Nat.leb orb].
  match goal with
  | |- context [time.isDigit (String y1 ?r) 0] =>
    change (time.isDigit (String y1 r) 0) with (isDigitChar y1)
  end.
  match goal with H : isDigitChar y1 = true |- _ => rewrite H end.
  cbn [negb take drop].
  rewrite atoi_four_digits by assumption.
  rewrite parseLoop_step, chunk2, skip_app, getnum_fixed_digits by assumption.
  replace ((number2 m1 m2 <=? 0) || (12 <? number2 m1 m2)) with false
    by (symmetry; apply orb_false_iff; lia).
  rewrite parseLoop_step, chunk3, skip_app, getnum_fixed_digits by assumption.
  destruct n; [cbn [time.parseLoop]|rewrite parseLoop_step];
    cbn [time.nextStdChunk]; rewrite skip_nil; reflexivity.
Qed.

End ThreeElements.

Lemma layoutWith_chunks (sep : string) :
  In sep [EmptyString; "-"; "/"] ->
  time.nextStdChunk (layoutWith sep)
  = (EmptyString, Some time.stdLongYear, sep ++ "01" ++ sep ++ "02")
  /\ time.nextStdChunk (sep ++ "01" ++ sep ++ "02")
     = (sep, Some time.stdZeroMonth, sep ++ "02")
  /\ time.nextStdChunk (sep ++ "02")
     = (sep, Some time.stdZeroDay, EmptyString).
Proof.
  intros [<-|[<-|[<-|[]]]]; repeat split; reflexivity.
Qed.

Lemma appendInt_four_digits (a b c d : ascii) :
  isDigitChar a = true -> isDigitChar b = true ->
  isDigitChar c = true -> isDigitChar d = true ->
  time.appendInt EmptyString (number4 a b c d) 4
  = String a (String b (String c (String d EmptyString))).
Proof.
  intros Ha Hb Hc Hd.
  assert (Hall :
    forallb (fun a => forallb (fun b => forallb (fun c => forallb (fun d =>
      String.eqb (time.appendInt EmptyString (number4 a b c d) 4)
        (String a (String b (String c (String d EmptyString)))))
      digitChars) digitChars) digitChars) digitChars = true)
    by (vm_compute; reflexivity).
  apply String.eqb_eq.
  rewrite forallb_forall in Hall.
  specialize (Hall a (isDigitChar_cases a Ha)).
  rewrite forallb_forall in Hall.
  specialize (Hall b (isDigitChar_cases b Hb)).
  rewrite forallb_forall in Hall.
  specialize (Hall c (isDigitChar_cases c Hc)).
  rewrite forallb_forall in Hall.
  exact (Hall d (isDigitChar_cases d Hd)).
Qed.

Lemma appendInt_two_digits (a b : ascii) :
  isDigitChar a = true -> isDigitChar b = true ->
  time.appendInt EmptyString (number2 a b) 2
  = String a (String b EmptyString).
Proof.
  intros Ha Hb.
  assert (Hall :
    forallb (fun a => forallb (fun b =>
      String.eqb (time.appendInt EmptyString (number2 a b) 2)
        (String a (String b EmptyString)))
      digitChars) digitChars = true)
    by (vm_compute; reflexivity).
  apply String.eqb_eq.
  rewrite forallb_forall in Hall.
  specialize (Hall a (isDigitChar_cases a Ha)).
  rewrite forallb_forall in Hall.
  exact (Hall b (isDigitChar_cases b Hb)).
Qed.

Lemma appendInt_buffer (b : string) (x : Z) (width : nat) :
  time.appendInt b x width = b ++ time.appendInt EmptyString x width.
Proof. reflexivity. Qed.

Lemma formatLoop_step (fuel : nat) (b layout : string) (t : time.Time) :
  time.formatLoop (S fuel) b layout t =
  let '(prefix, std, suffix) := time.nextStdChunk layout in
  match std with
  | None => b ++ prefix
  | Some time.stdLongYear =>
    time.formatLoop fuel (time.appendInt (b ++ prefix) (time.Year t) 4) suffix t
  | Some time.stdZeroMonth =>
    time.formatLoop fuel (time.appendInt (b ++ prefix) (time.Month t) 2) suffix t
  | Some time.stdZeroDay =>
    time.formatLoop fuel (time.appendInt (b ++ prefix) (time.Day t) 2) suffix t
  end.
Proof.
  cbn [time.formatLoop].
  destruct (time.nextStdChunk layout) as [[prefix std] suffix].
  reflexivity.
Qed.

Lemma Format_layoutWith (sep : string) (t : time.Time) :
  In sep [EmptyString; "-"; "/"] ->
  time.Format t (layoutWith sep)
  = time.appendInt EmptyString (time.Year t) 4 ++ sep
    ++ time.appendInt EmptyString (time.Month t) 2 ++ sep
    ++ time.appendInt EmptyString (time.Day t) 2.
Proof.
  intros Hsep. destruct (layoutWith_chunks sep Hsep) as [C1 [C2 C3]].
  unfold time.Format.
  rewrite (formatLoop_rounds _ (S (S (S (S (String.length (layoutWith sep))))))
             _ _ _ (Nat.lt_succ_diag_r _))
    by lia.
  rewrite formatLoop_step, C1, formatLoop_step, C2, formatLoop_step, C3.
  rewrite formatLoop_step. cbn [time.nextStdChunk].
  rewrite !(appendInt_buffer (_ ++ _)), !append_assoc, append_nil_r.
  reflexivity.
Qed.

(** What each of the three layouts accepts, and the date it reads. *)
Lemma Parse_layoutWith (sep v : string) (t : time.Time) :
  In sep [EmptyString; "-"; "/"] ->
  time.Parse (layoutWith sep) v = Some t <->
  exists y1 y2 y3 y4 m1 m2 d1 d2,
    v = dateText sep y1 y2 y3 y4 m1 m2 d1 d2
    /\ Forall (fun c => isDigitChar c = true) [y1; y2; y3; y4; m1; m2; d1; d2]
    /\ t = time.mkTime (number4 y1 y2 y3 y4) (number2 m1 m2) (number2 d1 d2)
    /\ 1 <= number2 m1 m2 <= 12
    /\ 1 <= number2 d1 d2
       <= time.daysIn (number2 m1 m2) (number4 y1 y2 y3 y4).
Proof.
  intros Hsep. destruct (layoutWith_chunks sep Hsep) as [C1 [C2 C3]].
  unfold time.Parse.
  rewrite (parseLoop_rounds _ (S (S (S (S (String.length (layoutWith sep))))))
             _ _ _ _ _ (Nat.lt_succ_diag_r _))
    by lia.
  split.
  - destruct (time.parseLoop _ _ _ _ _ _) as [[[y m] d]|] eqn:E;
      [|discriminate].
    destruct (parseLoop_three_inv _ _ _ _ C1 C2 C3 _ _ _ _ _ _ _ _ E)
      as [y1 [y2 [y3 [y4 [m1 [m2 [d1 [d2 [-> [HF [-> [-> [-> Hm]]]]]]]]]]]]].
    destruct (Z.ltb_spec (number2 m1 m2) 0); [lia|].
    destruct (Z.ltb_spec (number2 d1 d2) 0) as [Hneg|Hpos].
    + intros _. exfalso.
      inversion HF as [|? ? _ HF1]; inversion HF1 as [|? ? _ HF2];
        inversion HF2 as [|? ? _ HF3]; inversion HF3 as [|? ? _ HF4];
        inversion HF4 as [|? ? _ HF5]; inversion HF5 as [|? ? _ HF6];
        inversion HF6 as [|? ? Hd1 HF7]; inversion HF7 as [|? ? Hd2 _].
      pose proof (digitVal_range _ Hd1). pose proof (digitVal_range _ Hd2).
      unfold number2 in Hneg. lia.
    + destruct ((number2 d1 d2 <? 1)
                || (time.daysIn (number2 m1 m2) (number4 y1 y2 y3 y4)
                    <? number2 d1 d2)) eqn:Ev; [discriminate|].
      intros Ht. injection Ht as <-.
      apply orb_false_iff in Ev. destruct Ev as [Ev1 Ev2].
      apply Z.ltb_ge in Ev1, Ev2.
      exists y1, y2, y3, y4, m1, m2, d1, d2. repeat split; auto; lia.
  - intros [y1 [y2 [y3 [y4 [m1 [m2 [d1 [d2 [-> [HF [-> [Hm Hd]]]]]]]]]]]].
    rewrite (parseLoop_three_digits _ _ _ _ C1 C2 C3 _ _ _ _ _ _ _ _ _ _ _ _
               HF Hm).
    destruct (Z.ltb_spec (number2 m1 m2) 0); [lia|].
    destruct (Z.ltb_spec (number2 d1 d2) 0); [lia|].
    replace ((number2 d1 d2 <? 1)
             || (time.daysIn (number2 m1 m2) (number4 y1 y2 y3 y4)
                 <? number2 d1 d2)) with false; [reflexivity|].
    symmetry. apply orb_false_iff. split; apply Z.ltb_ge; lia.
Qed.

Lemma formats_layoutWith : formats = map layoutWith separators.
Proof. reflexivity. Qed.

Lemma tryFormats_some (fs : list string) (v : string) (t : time.Time) :
  tryFormats fs v None = Some t ->
  exists f, In f fs /\ time.Parse f v = Some t.
Proof.
  induction fs as [|f fs IH]; cbn [tryFormats]; [discriminate|].
  destruct (time.Parse f v) as [t'|] eqn:E.
  - intros H. injection H as <-. exists f. split; [left; reflexivity|exact E].
  - intros H. destruct (IH H) as [f' [Hin Hp]]. exists f'.
    split; [right; exact Hin|exact Hp].
Qed.

Lemma tryFormats_none (fs : list string) (v : string) :
  tryFormats fs v None = None <-> forall f, In f fs -> time.Parse f v = None.
Proof.
  induction fs as [|f fs IH]; cbn [tryFormats].
  - split; [intros _ f []|reflexivity].
  - destruct (time.Parse f v) as [t'|] eqn:E.
    + split; [discriminate|]. intros H.
      rewrite (H f (or_introl eq_refl)) in E. discriminate.
    + rewrite IH. split.
      * intros H f' [<-|Hin]; [exact E|exact (H f' Hin)].
      * intros H f' Hin. apply H. right. exact Hin.
Qed.

Lemma length_dateText (sep : string) (y1 y2 y3 y4 m1 m2 d1 d2 : ascii) :
  String.length (dateText sep y1 y2 y3 y4 m1 m2 d1 d2)
  = (8 + 2 * String.length sep)%nat.
Proof.
  unfold dateText. cbn [String.length].
  assert (L : forall a b, String.length (a ++ b)
                          = (String.length a + String.length b)%nat).
  { induction a; intros; simpl; auto. }
  rewrite !L. cbn [String.length]. rewrite !L. cbn [String.length]. lia.
Qed.

(** No text is accepted by two of the three layouts. *)
Lemma separators_exclusive (s1 s2 v : string) (t1 t2 : time.Time) :
  In s1 separators -> In s2 separators ->
  time.Parse (layoutWith s1) v = Some t1 ->
  time.Parse (layoutWith s2) v = Some t2 ->
  s1 = s2.
Proof.
  intros H1 H2 P1 P2.
  apply (Parse_layoutWith s1 v t1 H1) in P1.
  apply (Parse_layoutWith s2 v t2 H2) in P2.
  destruct P1 as [a1 [a2 [a3 [a4 [a5 [a6 [a7 [a8 [E1 [F1 _]]]]]]]]]].
  destruct P2 as [b1 [b2 [b3 [b4 [b5 [b6 [b7 [b8 [E2 [F2 _]]]]]]]]]].
  rewrite E1 in E2. clear E1.
  assert (D5a : isDigitChar a5 = true).
  { inversion F1 as [|? ? _ G1]; inversion G1 as [|? ? _ G2];
      inversion G2 as [|? ? _ G3]; inversion G3 as [|? ? _ G4];
      inversion G4; assumption. }
  assert (D5b : isDigitChar b5 = true).
  { inversion F2 as [|? ? _ G1]; inversion G1 as [|? ? _ G2];
      inversion G2 as [|? ? _ G3]; inversion G3 as [|? ? _ G4];
      inversion G4; assumption. }
  unfold separators in H1, H2. unfold dateText in E2.
  destruct H1 as [<-|[<-|[<-|[]]]]; destruct H2 as [<-|[<-|[<-|[]]]];
    try reflexivity; cbn [append] in E2; exfalso;
    injection E2 as _ _ _ _ E5; try subst a5; try subst b5;
    try discriminate.
Qed.

Lemma lastDate_from_line (lines : list string) (t : time.Time) :
  lastDate lines = Some t -> exists raw, In raw lines /\ rawDate raw = Some t.
Proof.
  induction lines as [|raw lines IH]; cbn [lastDate]; [discriminate|].
  destruct (lastDate lines) as [d|].
  - intros H. destruct (IH H) as [r [Hin Hr]]. exists r. split; [right|]; auto.
  - intros H. exists raw. split; [left; reflexivity|exact H].
Qed.

Lemma rawDate_parsed (raw : string) (t : time.Time) :
  rawDate raw = Some t ->
  exists sep, In sep separators
    /\ time.Parse (layoutWith sep)
         (stripTime (bdayStrOf (strings.TrimSpace raw))) = Some t.
Proof.
  unfold rawDate, lineDate.
  destruct (strings.HasPrefix _ "BDAY"); [|discriminate].
  destruct (is_empty _); [discriminate|].
  intros H. apply tryFormats_some in H. destruct H as [f [Hin Hp]].
  rewrite formats_layoutWith in Hin. apply in_map_iff in Hin.
  destruct Hin as [sep [<- Hsep]]. exists sep. auto.
Qed.

Lemma number4_range (a b c d : ascii) :
  Forall (fun c => isDigitChar c = true) [a; b; c; d] ->
  0 <= number4 a b c d <= 9999.
Proof.
  intros H. rewrite Forall_forall in H.
  pose proof (digitVal_range a (H a ltac:(simpl; tauto))).
  pose proof (digitVal_range b (H b ltac:(simpl; tauto))).
  pose proof (digitVal_range c (H c ltac:(simpl; tauto))).
  pose proof (digitVal_range d (H d ltac:(simpl; tauto))).
  unfold number4. lia.
Qed.

Lemma Parse_validDate (sep v : string) (t : time.Time) :
  In sep separators -> time.Parse (layoutWith sep) v = Some t -> validDate t.
Proof.
  intros Hsep H. apply (Parse_layoutWith sep v t Hsep) in H.
  destruct H as [y1 [y2 [y3 [y4 [m1 [m2 [d1 [d2 [_ [HF [-> [Hm Hd]]]]]]]]]]]].
  unfold validDate. cbn [time.Year time.Month time.Day].
  split; [|split; assumption].
  apply number4_range. rewrite Forall_forall in *.
  intros c Hc. apply HF. simpl in *. tauto.
Qed.

(** X1: the loop over the formats yields a date for a birthday value
    exactly when the value is four, two and two digits, joined by nothing,
    by hyphens or by slashes, that denote a day of the calendar (month 1 to
    12, day within the month, leap years counted); the date is the one
    written.  Otherwise the date known before is kept. *)
Theorem birthday_value_accepted_iff (v : string) (t : time.Time)
    (cur : option time.Time) :
  (tryFormats formats v cur = Some t <->
   (exists sep y1 y2 y3 y4 m1 m2 d1 d2,
      In sep separators
      /\ v = dateText sep y1 y2 y3 y4 m1 m2 d1 d2
      /\ Forall (fun c => isDigitChar c = true)
           [y1; y2; y3; y4; m1; m2; d1; d2]
      /\ t = time.mkTime (number4 y1 y2 y3 y4) (number2 m1 m2)
               (number2 d1 d2)
      /\ 1 <= number2 m1 m2 <= 12
      /\ 1 <= number2 d1 d2
         <= time.daysIn (number2 m1 m2) (number4 y1 y2 y3 y4))
   \/ (tryFormats formats v None = None /\ cur = Some t)).
Proof.
  rewrite tryFormats_default.
  destruct (tryFormats formats v None) as [t'|] eqn:E.
  - split.
    + intros H. injection H as ->. left.
      apply tryFormats_some in E. destruct E as [f [Hin Hp]].
      rewrite formats_layoutWith in Hin. apply in_map_iff in Hin.
      destruct Hin as [sep [<- Hsep]].
      apply (Parse_layoutWith sep v t Hsep) in Hp.
      destruct Hp as [y1 [y2 [y3 [y4 [m1 [m2 [d1 [d2 Hp]]]]]]]].
      exists sep, y1, y2, y3, y4, m1, m2, d1, d2. tauto.
    + intros [[sep [y1 [y2 [y3 [y4 [m1 [m2 [d1 [d2 [Hsep Hp]]]]]]]]]]|[F _]];
        [|discriminate].
      assert (HP : time.Parse (layoutWith sep) v = Some t).
      { apply (Parse_layoutWith sep v t Hsep).
        exists y1, y2, y3, y4, m1, m2, d1, d2. exact Hp. }
      apply tryFormats_some in E. destruct E as [f [Hin Hf]].
      rewrite formats_layoutWith in Hin. apply in_map_iff in Hin.
      destruct Hin as [sep' [<- Hsep']].
      rewrite (separators_exclusive sep' sep v t' t Hsep' Hsep Hf HP) in Hf.
      congruence.
  - split.
    + intros H. right. auto.
    + intros [[sep [y1 [y2 [y3 [y4 [m1 [m2 [d1 [d2 [Hsep Hp]]]]]]]]]]|[_ H]];
        [|exact H].
      exfalso.
      assert (HP : time.Parse (layoutWith sep) v = Some t).
      { apply (Parse_layoutWith sep v t Hsep).
        exists y1, y2, y3, y4, m1, m2, d1, d2. exact Hp. }
      rewrite (proj1 (tryFormats_none formats v) E (layoutWith sep)) in HP;
        [discriminate|].
      rewrite formats_layoutWith. apply in_map. exact Hsep.
Qed.

Lemma tryFormats_sub (fs : list string) (v : string) (t : time.Time) :
  (forall f, In f fs -> In f formats) ->
  (exists f, In f fs /\ time.Parse f v = Some t) ->
  tryFormats fs v None = Some t.
Proof.
  intros Hsub [f [Hin Hp]].
  destruct (tryFormats fs v None) as [t'|] eqn:E.
  - apply tryFormats_some in E. destruct E as [f' [Hin' Hp']].
    pose proof (Hsub f Hin) as Hf. pose proof (Hsub f' Hin') as Hf'.
    rewrite formats_layoutWith in Hf, Hf'.
    apply in_map_iff in Hf, Hf'.
    destruct Hf as [s [<- Hs]]. destruct Hf' as [s' [<- Hs']].
    rewrite (separators_exclusive s' s v t' t Hs' Hs Hp' Hp) in Hp'.
    congruence.
  - rewrite (proj1 (tryFormats_none fs v) E f Hin) in Hp. discriminate.
Qed.

(** X2: no text is accepted by two of the three formats, so trying them in
    any other order gives the same result. *)
Theorem formats_order_is_immaterial (fs : list string) (v : string)
    (cur : option time.Time) :
  Permutation fs formats ->
  tryFormats fs v cur = tryFormats formats v cur.
Proof.
  intros HP. rewrite (tryFormats_default fs), (tryFormats_default formats).
  destruct (tryFormats formats v None) as [t|] eqn:E.
  - rewrite (tryFormats_sub fs v t); [reflexivity| |].
    + intros f Hin. apply (Permutation_in _ HP Hin).
    + apply tryFormats_some in E. destruct E as [f [Hin Hp]].
      exists f. split; [|exact Hp].
      apply (Permutation_in _ (Permutation_sym HP) Hin).
  - replace (tryFormats fs v None) with (@None time.Time); [reflexivity|].
    symmetry. apply tryFormats_none. intros f Hin.
    apply (proj1 (tryFormats_none formats v) E).
    apply (Permutation_in _ HP Hin).
Qed.

Lemma formats_order_witness :
  tryFormats ["2006/01/02"; "20060102"; "2006-01-02"] "2003-06-15" None
  = tryFormats formats "2003-06-15" None.
Proof.
  apply formats_order_is_immaterial.
  exact (Permutation_cons_append ["20060102"; "2006-01-02"] "2006/01/02").
Defined.

(** What a returned fact is made of. *)
Lemma parseBirthdayVCard_inv (vcard : string) (b : Birthday) :
  parseBirthdayVCard vcard = Some b <->
  exists t,
    lastDate (strings.Split vcard LF) = Some t
    /\ (fieldValue "N:" (strings.Split vcard LF) <> EmptyString
        \/ fieldValue "FN:" (strings.Split vcard LF) <> EmptyString)
    /\ b = mkBirthday
             (fieldValue "UID:" (strings.Split vcard LF))
             (date.FromTime t)
             (if is_empty (fieldValue "FN:" (strings.Split vcard LF))
              then fieldValue "N:" (strings.Split vcard LF)
              else fieldValue "FN:" (strings.Split vcard LF)).
Proof.
  unfold parseBirthdayVCard, result.
  rewrite scanVCard_birthdayDate, scanVCard_name, scanVCard_fullName,
    scanVCard_uid.
  destruct (lastDate (strings.Split vcard LF)) as [t|].
  - destruct (fieldValue "N:" (strings.Split vcard LF)) as [|c n];
      destruct (fieldValue "FN:" (strings.Split vcard LF)) as [|c' f];
      cbn [is_empty negb orb]; split;
      try (intros H; injection H as <-; exists t;
           repeat split; try reflexivity;
           try (left; discriminate); right; discriminate);
      try (intros [t' [Ht [_ ->]]]; injection Ht as <-; reflexivity).
    + discriminate.
    + intros [t' [_ [[F|F] _]]]; exfalso; apply F; reflexivity.
  - split; [discriminate|]. intros [t' [Ht _]]. discriminate.
Qed.

(** X3: the date of every fact the extractor returns is a day of the
    calendar with a year from 0 to 9999. *)
Theorem extracted_date_is_valid (vcard : string) (b : Birthday) :
  parseBirthdayVCard vcard = Some b ->
  0 <= date.year (Date b) <= 9999
  /\ 1 <= date.month (Date b) <= 12
  /\ 1 <= date.day (Date b)
     <= time.daysIn (date.month (Date b)) (date.year (Date b)).
Proof.
  intros H. apply parseBirthdayVCard_inv in H.
  destruct H as [t [E [_ ->]]].
  apply lastDate_from_line in E. destruct E as [raw [_ Hr]].
  apply rawDate_parsed in Hr. destruct Hr as [sep [Hsep Hp]].
  exact (Parse_validDate sep _ t Hsep Hp).
Qed.

Lemma extracted_date_is_valid_witness :
  0 <= 2004 <= 9999 /\ 1 <= 2 <= 12 /\ 1 <= 29 <= time.daysIn 2 2004.
Proof.
  exact (extracted_date_is_valid
           ("FN:Jane Doe" ++ LF ++ "BDAY:2004-02-29")
           (mkBirthday EmptyString (date.mkDate 2004 2 29) "Jane Doe")
           eq_refl).
Defined.

(** X4: in a returned fact the identifier is the value of the last UID
    line (empty without one), the name is the value of the last FN line
    or, when that is empty, of the last N line, and is never empty, and the
    date is that of the last birthday line that parses. *)
Theorem fact_fields (vcard : string) (b : Birthday) :
  parseBirthdayVCard vcard = Some b ->
  UID b = fieldValue "UID:" (strings.Split vcard LF)
  /\ (fieldValue "FN:" (strings.Split vcard LF) <> EmptyString ->
      FullName b = fieldValue "FN:" (strings.Split vcard LF))
  /\ (fieldValue "FN:" (strings.Split vcard LF) = EmptyString ->
      FullName b = fieldValue "N:" (strings.Split vcard LF))
  /\ FullName b <> EmptyString
  /\ option_map date.FromTime (lastDate (strings.Split vcard LF))
     = Some (Date b).
Proof.
  intros H. apply parseBirthdayVCard_inv in H.
  destruct H as [t [E [Hn ->]]]. cbn [UID FullName Date]. rewrite E.
  destruct (fieldValue "FN:" (strings.Split vcard LF)) as [|c f];
    cbn [is_empty]; repeat split; try reflexivity; try congruence.
  destruct Hn as [Hn|Hn]; [exact Hn|congruence].
Qed.

Lemma fact_fields_witness :
  UID (mkBirthday "abc-1" (date.mkDate 2003 6 15) "Doe;Jane;;;")
  = fieldValue "UID:"
      (strings.Split
         ("UID:old" ++ LF ++ "N:Doe;Jane;;;" ++ LF ++ "FN:" ++ LF
          ++ "UID:abc-1" ++ LF ++ "BDAY:20030615") LF).
Proof.
  exact (proj1 (fact_fields
           ("UID:old" ++ LF ++ "N:Doe;Jane;;;" ++ LF ++ "FN:" ++ LF
            ++ "UID:abc-1" ++ LF ++ "BDAY:20030615")
           (mkBirthday "abc-1" (date.mkDate 2003 6 15) "Doe;Jane;;;")
           eq_refl)).
Defined.

Lemma processLine_irrelevant (st : locals) (line : string) :
  strings.HasPrefix line "N:" = false ->
  strings.HasPrefix line "FN:" = false ->
  strings.HasPrefix line "UID:" = false ->
  strings.HasPrefix line "BDAY" = false ->
  processLine st line = st.
Proof.
  intros H1 H2 H3 H4. unfold processLine. rewrite H1, H2, H3, H4.
  destruct st; reflexivity.
Qed.

(** X5: lines that, trimmed, start with none of N:, FN:, UID: and BDAY
    have no influence: dropping them from the record changes nothing. *)
Theorem irrelevant_lines_are_ignored (lines : list string) (st : locals) :
  scanLines (filter relevantLine lines) st = scanLines lines st.
Proof.
  revert st. induction lines as [|raw lines IH]; intros st; [reflexivity|].
  cbn [filter]. destruct (relevantLine raw) eqn:E.
  - unfold scanLines in *. cbn [fold_left]. apply IH.
  - unfold relevantLine in E.
    apply orb_false_iff in E. destruct E as [E E4].
    apply orb_false_iff in E. destruct E as [E E3].
    apply orb_false_iff in E. destruct E as [E1 E2].
    unfold scanLines in *. cbn [fold_left].
    change (scanLine st raw) with (processLine st (strings.TrimSpace raw)).
    rewrite (processLine_irrelevant st _ E1 E2 E3 E4). apply IH.
Qed.

Lemma scanLine_stdout (st : locals) (raw : string) :
  stdout (scanLine st raw) =
  match birthdayDate st with
  | Some _ => stdout st
  | None => List.app (stdout st) (diagnosticOf raw)
  end.
Proof.
  unfold scanLine, processLine, diagnosticOf.
  destruct (strings.HasPrefix (strings.TrimSpace raw) "BDAY");
    cbn [andb stdout]; [|destruct (birthdayDate st); [|rewrite app_nil_r];
                          reflexivity].
  destruct (is_empty (bdayStrOf (strings.TrimSpace raw)));
    cbn [negb stdout]; [destruct (birthdayDate st); [|rewrite app_nil_r];
                        reflexivity|].
  rewrite tryFormats_default.
  destruct (tryFormats formats _ None);
    destruct (birthdayDate st); try reflexivity.
  rewrite app_nil_r. reflexivity.
Qed.

Lemma scanLines_stdout_some (lines : list string) (st : locals) :
  birthdayDate st <> None -> stdout (scanLines lines st) = stdout st.
Proof.
  revert st. induction lines as [|raw lines IH]; intros st H; [reflexivity|].
  unfold scanLines in *. cbn [fold_left]. rewrite IH.
  - rewrite scanLine_stdout. destruct (birthdayDate st); [reflexivity|].
    congruence.
  - unfold scanLine. rewrite processLine_birthdayDate.
    destruct (lineDate _); [discriminate|exact H].
Qed.

(** X6: what the extractor prints is one diagnostic for each birthday
    line with a non-empty value that fails every format and stands before
    the first line that yields a date, in the order of the record, and
    nothing else. *)
Theorem stdout_is_the_diagnostics (lines : list string) (st : locals) :
  birthdayDate st = None ->
  stdout (scanLines lines st) = List.app (stdout st) (diagnostics lines).
Proof.
  revert st. induction lines as [|raw lines IH]; intros st H.
  - cbn. rewrite app_nil_r. reflexivity.
  - unfold scanLines in *. cbn [fold_left diagnostics].
    pose proof (scanLine_stdout st raw) as Hout. rewrite H in Hout.
    assert (Hd : birthdayDate (scanLine st raw) = rawDate raw).
    { unfold scanLine. rewrite processLine_birthdayDate, H.
      unfold rawDate. destruct (lineDate _); reflexivity. }
    destruct (rawDate raw) as [t|] eqn:E.
    + fold (scanLines lines (scanLine st raw)).
      rewrite scanLines_stdout_some by (rewrite Hd; discriminate).
      rewrite Hout, app_nil_r.
      unfold diagnosticOf. unfold rawDate, lineDate in E.
      destruct (strings.HasPrefix _ "BDAY"); [|discriminate].
      destruct (is_empty _); [discriminate|]. cbn [negb andb].
      rewrite E, app_nil_r. reflexivity.
    + rewrite (IH _ Hd), Hout, app_assoc. reflexivity.
Qed.

Lemma stdout_is_the_diagnostics_witness :
  stdout (scanLines ["BDAY:soon"; "BDAY:"; "BDAY:20030615"; "BDAY:never"]
            locals0)
  = ["failed to parse birthday date: soon" ++ LF].
Proof.
  rewrite (stdout_is_the_diagnostics
             ["BDAY:soon"; "BDAY:"; "BDAY:20030615"; "BDAY:never"] locals0
             eq_refl).
  vm_compute. reflexivity.
Defined.

Lemma Format_digits (sep : string) (y1 y2 y3 y4 m1 m2 d1 d2 : ascii) :
  In sep separators ->
  Forall (fun c => isDigitChar c = true) [y1; y2; y3; y4; m1; m2; d1; d2] ->
  time.Format
    (time.mkTime (number4 y1 y2 y3 y4) (number2 m1 m2) (number2 d1 d2))
    (layoutWith sep)
  = dateText sep y1 y2 y3 y4 m1 m2 d1 d2.
Proof.
  intros Hsep HF. rewrite Forall_forall in HF.
  rewrite (Format_layoutWith sep _ Hsep).
  cbn [time.Year time.Month time.Day].
  rewrite appendInt_four_digits, !appendInt_two_digits
    by (apply HF; simpl; tauto).
  reflexivity.
Qed.

(** X7: writing a parsed date with the layout it was read with gives the
    text back. *)
Theorem parsed_date_formats_back (layout v : string) (t : time.Time) :
  In layout formats ->
  time.Parse layout v = Some t ->
  time.Format t layout = v.
Proof.
  intros Hin Hp. rewrite formats_layoutWith in Hin.
  apply in_map_iff in Hin. destruct Hin as [sep [<- Hsep]].
  apply (Parse_layoutWith sep v t Hsep) in Hp.
  destruct Hp as [y1 [y2 [y3 [y4 [m1 [m2 [d1 [d2 [-> [HF [-> _]]]]]]]]]]].
  apply Format_digits; assumption.
Qed.

Lemma parsed_date_formats_back_witness :
  time.Format (time.mkTime 2004 2 29) "2006/01/02" = "2004/02/29".
Proof.
  apply (parsed_date_formats_back "2006/01/02" "2004/02/29").
  - right. right. left. reflexivity.
  - vm_compute. reflexivity.
Defined.


(** ** Birthday lines, identifiers, blanks and line ends *)

Lemma HasPrefix_app (p rest : string) : strings.HasPrefix (p ++ rest) p = true.
Proof.
  unfold strings.HasPrefix.
  induction p as [|x p IH]; cbn [append prefix].
  - destruct rest; reflexivity.
  - destruct (ascii_dec x x); [exact IH|congruence].
Qed.

Lemma HasPrefix_first_differs (x c : ascii) (s t : string) :
  Ascii.eqb x c = false ->
  strings.HasPrefix (String x s) (String c t) = false.
Proof.
  intros H. unfold strings.HasPrefix. cbn [prefix].
  destruct (ascii_dec c x) as [->|]; [|reflexivity].
  rewrite Ascii.eqb_refl in H. discriminate.
Qed.

Lemma Index_prefix (s sub : string) :
  strings.HasPrefix s sub = true -> strings.Index s sub = 0.
Proof. intros H. destruct s; cbn [strings.Index]; rewrite H; reflexivity. Qed.

Lemma Index_absent_first (c : ascii) (t s : string) :
  has_byte c s = false -> strings.Index s (String c t) = -1.
Proof.
  induction s as [|x s IH]; intros H; [reflexivity|].
  cbn [has_byte] in H. apply orb_false_iff in H. destruct H as [Hx Hs].
  rewrite Index_cons, (HasPrefix_first_differs x c s t Hx), (IH Hs).
  reflexivity.
Qed.

Lemma Index_after (c : ascii) (t p s : string) :
  has_byte c p = false ->
  strings.HasPrefix s (String c t) = true ->
  strings.Index (p ++ s) (String c t) = Z.of_nat (String.length p).
Proof.
  intros Hp Hs. induction p as [|x p IH].
  - apply Index_prefix, Hs.
  - cbn [has_byte] in Hp. apply orb_false_iff in Hp. destruct Hp as [Hx Hp].
    cbn [append]. rewrite Index_cons, (HasPrefix_first_differs x c _ t Hx).
    rewrite (IH Hp). destruct (Z.ltb_spec (Z.of_nat (String.length p)) 0);
      [lia|]. cbn [String.length]. lia.
Qed.

Lemma drop_length_app (a b : string) : drop (String.length a) (a ++ b) = b.
Proof.
  induction a as [|x a IH]; cbn [String.length append drop]; [|exact IH].
  destruct b; reflexivity.
Qed.

Lemma length_append (a b : string) :
  String.length (a ++ b) = (String.length a + String.length b)%nat.
Proof. induction a; simpl; auto. Qed.

Lemma genSplit_absent (c : ascii) (t v : string) (n : nat) :
  has_byte c v = false -> strings.genSplit n v (String c t) = [v].
Proof.
  intros H. destruct n; [reflexivity|].
  cbn [strings.genSplit]. rewrite (Index_absent_first c t v H). reflexivity.
Qed.

(** A text with one separator, which starts with a byte that occurs
    nowhere else, splits into the two parts around it. *)
Lemma Split_once (c : ascii) (t p v : string) :
  has_byte c p = false -> has_byte c v = false ->
  strings.Split (p ++ String c t ++ v) (String c t) = [p; v]
  /\ strings.Contains (p ++ String c t ++ v) (String c t) = true.
Proof.
  intros Hp Hv.
  assert (HI : strings.Index (p ++ String c t ++ v) (String c t)
               = Z.of_nat (String.length p)).
  { apply Index_after; [exact Hp|apply HasPrefix_app]. }
  split.
  - unfold strings.Split.
    assert (Hn : exists n, String.length (p ++ String c t ++ v) = S n).
    { rewrite length_append. cbn [append String.length].
      exists (String.length p + String.length (t ++ v))%nat. lia. }
    destruct Hn as [n ->].
    cbn [strings.genSplit]. cbv zeta. rewrite HI.
    destruct (Z.ltb_spec (Z.of_nat (String.length p)) 0); [lia|].
    rewrite Nat2Z.id, take_length_app.
    rewrite <- length_append, <- append_assoc, drop_length_app.
    rewrite (genSplit_absent c t v _ Hv). reflexivity.
  - unfold strings.Contains. rewrite HI. apply Z.leb_le. lia.
Qed.

(** X9: a line BDAY<parameters>;VALUE=date:<value> whose only semicolon is
    that of the marker carries <value>, whatever stands between BDAY and the
    marker, and so does BDAY:<value>; both yield the same date. *)
Theorem birthday_line_encodings (params v : string) :
  has_byte ";" params = false -> has_byte ";" v = false ->
  bdayStrOf ("BDAY" ++ params ++ ";VALUE=date:" ++ v) = v
  /\ bdayStrOf ("BDAY:" ++ v) = v
  /\ lineDate ("BDAY" ++ params ++ ";VALUE=date:" ++ v) = lineDate ("BDAY:" ++ v).
Proof.
  intros Hp Hv.
  assert (E1 : bdayStrOf ("BDAY" ++ params ++ ";VALUE=date:" ++ v) = v).
  { unfold bdayStrOf.
    destruct (Split_once ";" "VALUE=date:" ("BDAY" ++ params) v) as [HS HC];
      [rewrite has_byte_app, Hp; reflexivity|exact Hv|].
    rewrite append_assoc in HS, HC.
    change (String ";" "VALUE=date:") with ";VALUE=date:" in HS, HC.
    rewrite HC, HS. reflexivity. }
  assert (E2 : bdayStrOf ("BDAY:" ++ v) = v).
  { unfold bdayStrOf, strings.Contains.
    rewrite (Index_absent_first ";" "VALUE=date:" ("BDAY:" ++ v))
      by (rewrite has_byte_app, Hv; reflexivity).
    cbn [Z.leb Z.compare].
    unfold strings.TrimPrefix. rewrite (HasPrefix_app "BDAY:" v).
    apply (drop_length_app "BDAY:" v). }
  split; [exact E1|split; [exact E2|]].
  unfold lineDate. rewrite E1, E2.
  rewrite (HasPrefix_app "BDAY").
  change ("BDAY:" ++ v) with ("BDAY" ++ (":" ++ v)).
  rewrite (HasPrefix_app "BDAY"). reflexivity.
Qed.









Lemma asciiSpace_facts (c : ascii) :
  asciiSpace c = true ->
  byte_of c < 128 /\ unicode.IsSpace (byte_of c) = true
  /\ utf8.first (byte_of c) = utf8.as_ascii.
Proof.
  unfold asciiSpace. cbv zeta. intros H.
  repeat (apply orb_true_iff in H; destruct H as [H|H]);
    apply Z.eqb_eq in H; rewrite H; repeat split; reflexivity.
Qed.

Lemma first_lead (b : Z) (sz : nat) (lo hi : Z) :
  utf8.first b = utf8.lead sz lo hi -> 128 <= lo /\ (2 <= sz <= 4)%nat.
Proof.
  unfold utf8.first, utf8.locb.
  repeat match goal with
         | |- context [if ?c then _ else _] => destruct c
         end; intros H; inversion H; subst; lia.
Qed.

Lemma byte_of_range (c : ascii) : 0 <= byte_of c < 256.
Proof.
  unfold byte_of. pose proof (nat_ascii_bounded c). lia.
Qed.

(** The width of the first rune does not exceed the text. *)
Lemma DecodeRuneInString_size_le (s : string) :
  s <> EmptyString ->
  (1 <= snd (utf8.DecodeRuneInString s) <= String.length s)%nat.
Proof.
  destruct s as [|a s]; [congruence|]. intros _.
  unfold utf8.DecodeRuneInString.
  destruct (utf8.first (byte_of a)) as [| |sz lo hi] eqn:Ef;
    cbn [snd String.length]; try lia.
  destruct (first_lead _ _ _ _ Ef) as [_ Hsz].
  destruct (Nat.ltb_spec (S (String.length s)) sz) as [|Hlen];
    cbn [snd]; [lia|].
  repeat match goal with
         | |- context [if ?c then _ else _] =>
           let E := fresh "E" in destruct c eqn:E
         end; cbn [snd]; try lia;
    repeat match goal with
           | H : (_ <=? _)%nat = false |- _ => apply Nat.leb_gt in H
           end; lia.
Qed.

Lemma byte_at_app_l (s t : string) (i : nat) :
  (i < String.length s)%nat -> byte_at (s ++ t) i = byte_at s i.
Proof.
  intros H. unfold byte_at. rewrite <- (append_correct1 s t i H). reflexivity.
Qed.

Lemma byte_at_last (s : string) (c : ascii) :
  byte_at (s ++ String c EmptyString) (String.length s) = byte_of c.
Proof.
  unfold byte_at.
  change (String.length s) with (0 + String.length s)%nat.
  rewrite <- (append_correct2 s (String c EmptyString) 0). reflexivity.
Qed.

(** A byte below 128 behind a text does not change its first rune. *)
Lemma DecodeRuneInString_app (s : string) (c : ascii) :
  s <> EmptyString -> byte_of c < 128 ->
  utf8.DecodeRuneInString (s ++ String c EmptyString)
  = utf8.DecodeRuneInString s.
Proof.
  intros Hs Hc. destruct s as [|a s]; [congruence|]. clear Hs.
  unfold utf8.DecodeRuneInString. cbn [append].
  destruct (utf8.first (byte_of a)) as [| |sz lo hi] eqn:Ef;
    try reflexivity.
  destruct (first_lead _ _ _ _ Ef) as [Hlo Hsz].
  pose proof (byte_of_range c) as Hr.
  assert (Hnc : utf8.cont (byte_of c) = false).
  { unfold utf8.cont, utf8.locb.
    destruct (Z.leb_spec 128 (byte_of c)); [lia|reflexivity]. }
  assert (Hlow : (byte_of c <? lo) = true) by (apply Z.ltb_lt; lia).
  destruct s as [|b s].
  { (* one byte *)
    cbn [append String.length byte_at String.get].
    destruct sz as [|[|[|sz]]]; try lia; cbn [Nat.ltb Nat.leb].
    - rewrite Hlow. reflexivity.
    - reflexivity. }
  destruct s as [|d s].
  { (* two bytes *)
    cbn [append String.length byte_at String.get].
    destruct sz as [|[|[|[|sz]]]]; try lia; cbn [Nat.ltb Nat.leb].
    - reflexivity.
    - destruct ((byte_of b <? lo) || (hi <? byte_of b)); [reflexivity|].
      rewrite Hnc. reflexivity.
    - reflexivity. }
  destruct s as [|e s].
  { (* three bytes *)
    cbn [append String.length byte_at String.get].
    destruct sz as [|[|[|[|[|sz]]]]]; try lia; cbn [Nat.ltb Nat.leb].
    - reflexivity.
    - reflexivity.
    - destruct ((byte_of b <? lo) || (hi <? byte_of b)); [reflexivity|].
      destruct (utf8.cont (byte_of d)); cbn [negb]; [|reflexivity].
      rewrite Hnc. reflexivity. }
  (* four bytes or more: the fifth is never read *)
  cbn [append String.length byte_at String.get].
  destruct sz as [|[|[|[|[|sz]]]]]; try lia; cbn [Nat.ltb Nat.leb];
    reflexivity.
Qed.

Lemma take_app_le (n : nat) (s t : string) :
  (n <= String.length s)%nat -> take n (s ++ t) = take n s.
Proof.
  revert n. induction s as [|x s IH]; intros n H; cbn [String.length] in H.
  - assert (n = 0%nat) as -> by lia. destruct t; reflexivity.
  - destruct n as [|n]; [reflexivity|].
    cbn [append take]. rewrite IH by lia. reflexivity.
Qed.

Lemma drop_app_le (n : nat) (s t : string) :
  (n <= String.length s)%nat -> drop n (s ++ t) = drop n s ++ t.
Proof.
  revert n. induction s as [|x s IH]; intros n H; cbn [String.length] in H.
  - assert (n = 0%nat) as -> by lia. destruct t; reflexivity.
  - destruct n as [|n]; [reflexivity|].
    cbn [append drop]. apply IH. lia.
Qed.

Lemma take_all (n : nat) (s : string) :
  (String.length s <= n)%nat -> take n s = s.
Proof.
  revert n. induction s as [|x s IH]; intros n H; cbn [String.length] in H.
  - destruct n; reflexivity.
  - destruct n as [|n]; [lia|].
    cbn [take]. rewrite IH by lia. reflexivity.
Qed.

Lemma drop_nonempty (n : nat) (s : string) :
  (n < String.length s)%nat -> drop n s <> EmptyString.
Proof.
  intros H E. apply (f_equal String.length) in E.
  rewrite length_drop in E. cbn [String.length] in E. lia.
Qed.

(** The offset the scan starts from is only added to the result. *)
Lemma indexFunc_from_offset (f : Z -> bool) (truth : bool) (fuel i : nat)
    (s : string) :
  strings.indexFunc_from fuel i s f truth =
  if strings.indexFunc_from fuel 0 s f truth <? 0 then -1
  else strings.indexFunc_from fuel 0 s f truth + Z.of_nat i.
Proof.
  revert i s. induction fuel as [|fuel IH]; intros i s; [reflexivity|].
  cbn [strings.indexFunc_from].
  destruct (is_empty s); [reflexivity|].
  destruct (utf8.DecodeRuneInString s) as [r size].
  destruct (Bool.eqb (f r) truth); [reflexivity|].
  rewrite (IH (i + size)%nat), (IH (0 + size)%nat).
  destruct (Z.ltb_spec (strings.indexFunc_from fuel 0 (drop size s) f truth) 0)
    as [Hlt|Hge]; [reflexivity|].
  destruct (Z.ltb_spec
              (strings.indexFunc_from fuel 0 (drop size s) f truth
               + Z.of_nat (0 + size)) 0); lia.
Qed.

Lemma indexFunc_from_bound (f : Z -> bool) (truth : bool) (fuel i : nat)
    (s : string) :
  strings.indexFunc_from fuel i s f truth = -1
  \/ Z.of_nat i <= strings.indexFunc_from fuel i s f truth
     < Z.of_nat (i + String.length s).
Proof.
  revert i s. induction fuel as [|fuel IH]; intros i s; [left; reflexivity|].
  cbn [strings.indexFunc_from].
  destruct s as [|a s]; [left; reflexivity|]. cbn [is_empty].
  pose proof (DecodeRuneInString_size_le (String a s) ltac:(discriminate))
    as Hsz.
  destruct (utf8.DecodeRuneInString (String a s)) as [r size].
  cbn [snd] in Hsz.
  destruct (Bool.eqb (f r) truth).
  - right. cbn [String.length]. lia.
  - destruct (IH (i + size)%nat (drop size (String a s))) as [E|E];
      [left; exact E|right].
    rewrite length_drop in E. lia.
Qed.

(** A blank behind the text is not found by the scan for the first rune
    that is not a blank. *)
Lemma indexFunc_from_app (c : ascii) (n1 n2 i : nat) (s : string) :
  asciiSpace c = true ->
  (String.length s < n1)%nat -> (String.length s <= n2)%nat ->
  strings.indexFunc_from n1 i (s ++ String c EmptyString) unicode.IsSpace false
  = strings.indexFunc_from n2 i s unicode.IsSpace false.
Proof.
  intros Hc. destruct (asciiSpace_facts c Hc) as [Hlt [Hsp Has]].
  revert n2 i s. induction n1 as [|n1 IH]; intros n2 i s H1 H2; [lia|].
  destruct s as [|a s].
  - cbn [append strings.indexFunc_from is_empty].
    unfold utf8.DecodeRuneInString. rewrite Has, Hsp. cbn [Bool.eqb].
    destruct n1; destruct n2; reflexivity.
  - destruct n2 as [|n2]; [cbn [String.length] in H2; lia|].
    cbn [strings.indexFunc_from].
    change (is_empty (String a s ++ String c EmptyString)) with false.
    cbn [is_empty].
    rewrite (DecodeRuneInString_app (String a s) c ltac:(discriminate) Hlt).
    pose proof (DecodeRuneInString_size_le (String a s) ltac:(discriminate))
      as Hsz.
    destruct (utf8.DecodeRuneInString (String a s)) as [r size].
    cbn [snd] in Hsz.
    destruct (Bool.eqb (unicode.IsSpace r) false); [reflexivity|].
    rewrite drop_app_le by lia.
    apply IH; rewrite length_drop; lia.
Qed.

Lemma TrimLeftFunc_app (c : ascii) (s : string) :
  asciiSpace c = true ->
  strings.TrimLeftFunc (s ++ String c EmptyString) unicode.IsSpace
  = if strings.indexFunc s unicode.IsSpace false =? -1 then EmptyString
    else strings.TrimLeftFunc s unicode.IsSpace ++ String c EmptyString.
Proof.
  intros Hc. unfold strings.TrimLeftFunc, strings.indexFunc.
  rewrite (indexFunc_from_app c _ (String.length s) 0 s Hc)
    by (rewrite ?length_append; cbn [String.length]; lia).
  destruct (indexFunc_from_bound unicode.IsSpace false (String.length s) 0 s)
    as [E|E].
  - rewrite E. reflexivity.
  - destruct (Z.eqb_spec
                (strings.indexFunc_from (String.length s) 0 s
                   unicode.IsSpace false) (-1)); [lia|].
    apply drop_app_le. lia.
Qed.

Lemma lastIndexFunc_from_app (f : Z -> bool) (truth : bool) (fuel i : nat)
    (t u : string) :
  (i <= String.length t)%nat ->
  strings.lastIndexFunc_from fuel i (t ++ u) f truth
  = strings.lastIndexFunc_from fuel i t f truth.
Proof.
  revert i. induction fuel as [|fuel IH]; intros i Hi; [reflexivity|].
  cbn [strings.lastIndexFunc_from].
  destruct (i =? 0)%nat; [reflexivity|].
  rewrite take_app_le by exact Hi.
  destruct (utf8.DecodeLastRuneInString (take i t)) as [r size].
  destruct (Bool.eqb (f r) truth); [reflexivity|].
  apply IH. lia.
Qed.

Lemma lastIndexFunc_from_bound (f : Z -> bool) (truth : bool) (fuel i : nat)
    (t : string) :
  (i <= String.length t)%nat ->
  strings.lastIndexFunc_from fuel i t f truth = -1
  \/ 0 <= strings.lastIndexFunc_from fuel i t f truth < Z.of_nat i.
Proof.
  revert i. induction fuel as [|fuel IH]; intros i Hi; [left; reflexivity|].
  cbn [strings.lastIndexFunc_from].
  destruct (Nat.eqb_spec i 0) as [|Hi0]; [left; reflexivity|].
  assert (Hne : take i t <> EmptyString).
  { intros E. apply (f_equal String.length) in E.
    rewrite length_take in E. cbn [String.length] in E. lia. }
  pose proof (DecodeLastRuneInString_size (take i t) Hne) as Hsz.
  rewrite length_take in Hsz.
  destruct (utf8.DecodeLastRuneInString (take i t)) as [r size].
  cbn [snd] in Hsz.
  destruct (Bool.eqb (f r) truth); [right; lia|].
  destruct (IH (i - size)%nat ltac:(lia)) as [E|E]; [left; exact E|right; lia].
Qed.

Lemma DecodeLastRuneInString_ascii (t : string) (c : ascii) :
  byte_of c < 128 ->
  utf8.DecodeLastRuneInString (t ++ String c EmptyString) = (byte_of c, 1%nat).
Proof.
  intros Hc. unfold utf8.DecodeLastRuneInString.
  rewrite length_append. cbn [String.length].
  destruct (Z.eqb_spec (Z.of_nat (String.length t + 1)) 0); [lia|].
  replace (Z.to_nat (Z.of_nat (String.length t + 1) - 1))
    with (String.length t) by lia.
  rewrite byte_at_last. unfold utf8.RuneSelf.
  destruct (Z.ltb_spec (byte_of c) 128); [reflexivity|lia].
Qed.

Lemma lastIndexFunc_app (c : ascii) (t : string) :
  asciiSpace c = true ->
  strings.lastIndexFunc (t ++ String c EmptyString) unicode.IsSpace false
  = strings.lastIndexFunc t unicode.IsSpace false.
Proof.
  intros Hc. destruct (asciiSpace_facts c Hc) as [Hlt [Hsp _]].
  unfold strings.lastIndexFunc.
  rewrite length_append. cbn [String.length].
  rewrite Nat.add_1_r. cbn [strings.lastIndexFunc_from Nat.eqb].
  rewrite take_all by (rewrite length_append; cbn [String.length]; lia).
  rewrite (DecodeLastRuneInString_ascii t c Hlt), Hsp. cbn [Bool.eqb].
  replace (S (String.length t) - 1)%nat with (String.length t) by lia.
  apply lastIndexFunc_from_app, le_n.
Qed.

(** A blank behind a text is trimmed away. *)
Lemma TrimRightFunc_app (c : ascii) (t : string) :
  asciiSpace c = true ->
  strings.TrimRightFunc (t ++ String c EmptyString) unicode.IsSpace
  = strings.TrimRightFunc t unicode.IsSpace.
Proof.
  intros Hc. destruct (asciiSpace_facts c Hc) as [Hlt _].
  unfold strings.TrimRightFunc. rewrite (lastIndexFunc_app c t Hc).
  unfold strings.lastIndexFunc.
  destruct (lastIndexFunc_from_bound unicode.IsSpace false
              (String.length t) (String.length t) t (le_n _)) as [E|E].
  - rewrite E. reflexivity.
  - set (k := strings.lastIndexFunc_from (String.length t) (String.length t)
                t unicode.IsSpace false) in *.
    assert (Hk : (Z.to_nat k < String.length t)%nat) by lia.
    rewrite byte_at_app_l by lia.
    rewrite drop_app_le by lia.
    rewrite (DecodeRuneInString_app (drop (Z.to_nat k) t) c
               (drop_nonempty _ _ Hk) Hlt).
    pose proof (DecodeRuneInString_size_le (drop (Z.to_nat k) t)
                  (drop_nonempty _ _ Hk)) as Hsz.
    rewrite length_drop in Hsz.
    apply take_app_le.
    destruct ((0 <=? k) && (utf8.RuneSelf <=? byte_at t (Z.to_nat k))); lia.
Qed.

Lemma TrimRightFunc_empty :
  strings.TrimRightFunc EmptyString unicode.IsSpace = EmptyString.
Proof. reflexivity. Qed.

Lemma TrimLeftFunc_index_absent (s : string) :
  (strings.indexFunc s unicode.IsSpace false =? -1) = true ->
  strings.TrimLeftFunc s unicode.IsSpace = EmptyString.
Proof. intros H. unfold strings.TrimLeftFunc. rewrite H. reflexivity. Qed.

(** [TrimSpace] ignores a blank behind the text ... *)
Lemma TrimSpace_app_blank (c : ascii) (s : string) :
  asciiSpace c = true ->
  strings.TrimSpace (s ++ String c EmptyString) = strings.TrimSpace s.
Proof.
  intros Hc. unfold strings.TrimSpace, strings.TrimFunc.
  rewrite (TrimLeftFunc_app c s Hc).
  destruct (strings.indexFunc s unicode.IsSpace false =? -1) eqn:E.
  - rewrite (TrimLeftFunc_index_absent s E). reflexivity.
  - apply TrimRightFunc_app, Hc.
Qed.

Lemma indexFunc_cons_blank (c : ascii) (s : string) :
  asciiSpace c = true ->
  strings.indexFunc (String c s) unicode.IsSpace false
  = if strings.indexFunc s unicode.IsSpace false <? 0 then -1
    else strings.indexFunc s unicode.IsSpace false + 1.
Proof.
  intros Hc. destruct (asciiSpace_facts c Hc) as [Hlt [Hsp Has]].
  unfold strings.indexFunc.
  cbn [String.length strings.indexFunc_from is_empty].
  unfold utf8.DecodeRuneInString. rewrite Has, Hsp. cbn [Bool.eqb].
  rewrite indexFunc_from_offset. reflexivity.
Qed.

(** ... and a blank in front of it. *)
Lemma TrimSpace_cons_blank (c : ascii) (s : string) :
  asciiSpace c = true ->
  strings.TrimSpace (String c s) = strings.TrimSpace s.
Proof.
  intros Hc.
  unfold strings.TrimSpace, strings.TrimFunc. f_equal.
  unfold strings.TrimLeftFunc. rewrite (indexFunc_cons_blank c s Hc).
  unfold strings.indexFunc.
  destruct (indexFunc_from_bound unicode.IsSpace false (String.length s) 0 s)
    as [E|E].
  - rewrite E. reflexivity.
  - set (r := strings.indexFunc_from (String.length s) 0 s
                unicode.IsSpace false) in *.
    destruct (Z.ltb_spec r 0); [lia|].
    destruct (Z.eqb_spec (r + 1) (-1)); [lia|].
    destruct (Z.eqb_spec r (-1)); [lia|].
    replace (Z.to_nat (r + 1)) with (S (Z.to_nat r)) by lia.
    reflexivity.
Qed.


Lemma TrimSpace_blanks_behind (after s : string) :
  allBlank after = true -> strings.TrimSpace (s ++ after) = strings.TrimSpace s.
Proof.
  revert s. induction after as [|c after IH]; intros s H.
  - rewrite append_nil_r. reflexivity.
  - cbn [allBlank] in H. apply andb_true_iff in H. destruct H as [Hc H].
    change (String c after) with (String c EmptyString ++ after).
    rewrite <- append_assoc, (IH _ H). apply TrimSpace_app_blank, Hc.
Qed.

Lemma TrimSpace_blanks_before (before s : string) :
  allBlank before = true ->
  strings.TrimSpace (before ++ s) = strings.TrimSpace s.
Proof.
  induction before as [|c before IH]; intros H; [reflexivity|].
  cbn [allBlank] in H. apply andb_true_iff in H. destruct H as [Hc H].
  cbn [append]. rewrite (TrimSpace_cons_blank c _ Hc). apply IH, H.
Qed.

(** X11: ASCII blanks (space, tab, carriage return, line feed, vertical
    tab, form feed) before and behind a line do not change what the
    extractor does with it. *)
Theorem blanks_around_a_line_are_ignored (st : locals)
    (before raw after : string) :
  allBlank before = true -> allBlank after = true ->
  scanLine st (before ++ raw ++ after) = scanLine st raw.
Proof.
  intros Hb Ha. unfold scanLine.
  rewrite (TrimSpace_blanks_before before _ Hb),
    (TrimSpace_blanks_behind after raw Ha).
  reflexivity.
Qed.

Lemma Split_no_separator (c : ascii) (l : string) :
  has_byte c l = false -> strings.Split l (String c EmptyString) = [l].
Proof.
  intros H. unfold strings.Split. destruct (String.length l); [reflexivity|].
  cbn [strings.genSplit]. rewrite (Index_byte_absent c l H). reflexivity.
Qed.

Lemma Split_first_line (c : ascii) (l rest : string) :
  has_byte c l = false ->
  strings.Split (l ++ String c EmptyString ++ rest) (String c EmptyString)
  = l :: strings.Split rest (String c EmptyString).
Proof.
  intros H. unfold strings.Split at 1.
  assert (Hn : String.length (l ++ String c EmptyString ++ rest)
               = S (String.length l + String.length rest)).
  { rewrite length_append. cbn [append String.length]. lia. }
  rewrite Hn. cbn [strings.genSplit]. cbv zeta.
  change (l ++ String c EmptyString ++ rest) with (l ++ String c rest).
  rewrite (Index_byte_first c l rest H).
  destruct (Z.ltb_spec (Z.of_nat (String.length l)) 0); [lia|].
  rewrite Nat2Z.id, take_length_app. f_equal.
  change (String c rest) with (String c EmptyString ++ rest).
  rewrite <- (length_append l (String c EmptyString)).
  rewrite <- (append_assoc l (String c EmptyString) rest), drop_length_app.
  apply Split_rounds; [discriminate|lia].
Qed.

Lemma Split_concat (c : ascii) (ls : list string) :
  ls <> [] ->
  Forall (fun l => has_byte c l = false) ls ->
  strings.Split (String.concat (String c EmptyString) ls)
    (String c EmptyString) = ls.
Proof.
  intros Hne HF. induction HF as [|l ls Hl HF IH]; [congruence|].
  destruct ls as [|l' ls].
  - cbn [String.concat]. apply Split_no_separator, Hl.
  - change (String.concat (String c EmptyString) (l :: l' :: ls))
      with (l ++ String c EmptyString
              ++ String.concat (String c EmptyString) (l' :: ls)).
    rewrite (Split_first_line c l _ Hl), IH by discriminate. reflexivity.
Qed.

Lemma concat_CRLF (ls : list string) :
  String.concat CRLF ls = String.concat LF (crEnded ls).
Proof.
  induction ls as [|l ls IH]; [reflexivity|].
  destruct ls as [|l' ls]; [reflexivity|].
  change (String.concat CRLF (l :: l' :: ls))
    with (l ++ CRLF ++ String.concat CRLF (l' :: ls)).
  rewrite IH.
  change (crEnded (l :: l' :: ls)) with ((l ++ CR) :: crEnded (l' :: ls)).
  destruct (crEnded (l' :: ls)) as [|x xs] eqn:E;
    [destruct ls; discriminate|].
  change (String.concat LF ((l ++ CR) :: x :: xs))
    with ((l ++ CR) ++ LF ++ String.concat LF (x :: xs)).
  rewrite append_assoc. reflexivity.
Qed.

Lemma crEnded_LF_free (ls : list string) :
  Forall (fun l => has_byte ascii_LF l = false) ls ->
  Forall (fun l => has_byte ascii_LF l = false) (crEnded ls).
Proof.
  induction 1 as [|l ls Hl HF IH]; [constructor|].
  destruct ls as [|l' ls]; [repeat constructor; exact Hl|].
  change (crEnded (l :: l' :: ls)) with ((l ++ CR) :: crEnded (l' :: ls)).
  constructor; [|exact IH].
  rewrite has_byte_app, Hl. reflexivity.
Qed.

Lemma scanLines_cons (raw : string) (lines : list string) (st : locals) :
  scanLines (raw :: lines) st = scanLines lines (scanLine st raw).
Proof. reflexivity. Qed.

Lemma scanLines_crEnded (ls : list string) (st : locals) :
  scanLines (crEnded ls) st = scanLines ls st.
Proof.
  revert st. induction ls as [|l ls IH]; intros st; [reflexivity|].
  destruct ls as [|l' ls]; [reflexivity|].
  change (crEnded (l :: l' :: ls)) with ((l ++ CR) :: crEnded (l' :: ls)).
  rewrite (scanLines_cons (l ++ CR)), (scanLines_cons l), IH.
  f_equal. unfold scanLine.
  change CR with (String (ascii_of_nat 13) EmptyString).
  rewrite (TrimSpace_app_blank (ascii_of_nat 13) l eq_refl). reflexivity.
Qed.

(** X12: a record whose lines are joined by CR LF is read as the record
    with the same lines joined by LF. *)
Theorem line_endings_CRLF_or_LF (ls : list string) :
  Forall (fun l => has_byte ascii_LF l = false) ls ->
  scanVCard (String.concat CRLF ls) = scanVCard (String.concat LF ls)
  /\ parseBirthdayVCard (String.concat CRLF ls)
     = parseBirthdayVCard (String.concat LF ls).
Proof.
  intros HF.
  assert (E : scanVCard (String.concat CRLF ls)
              = scanVCard (String.concat LF ls)).
  { destruct ls as [|l ls]; [reflexivity|].
    unfold scanVCard. rewrite concat_CRLF.
    change LF with (String ascii_LF EmptyString).
    rewrite (Split_concat ascii_LF (l :: ls) ltac:(discriminate) HF).
    rewrite (Split_concat ascii_LF (crEnded (l :: ls)));
      [apply scanLines_crEnded| |apply crEnded_LF_free, HF].
    destruct ls; discriminate. }
  split; [exact E|]. unfold parseBirthdayVCard. rewrite E. reflexivity.
Qed.

(** ** The server: address books, the reply, the handler *)

Lemma NewAddressBooks_snoc (l : list AddressBook) (b : AddressBook) :
  NewAddressBooks (List.app l [b])
  = storeAddressBook (NewAddressBooks l) (Name b) b.
Proof. unfold NewAddressBooks. rewrite fold_left_app. reflexivity. Qed.

Lemma NewAddressBooks_lookup (l : list AddressBook) (key : string) :
  NewAddressBooks l key
  = find (fun book => String.eqb key (Name book)) (rev l).
Proof.
  induction l as [|b l IH] using rev_ind; [reflexivity|].
  rewrite NewAddressBooks_snoc, rev_app_distr. cbn [rev List.app find].
  unfold storeAddressBook. destruct (String.eqb key (Name b)); [reflexivity|].
  exact IH.
Qed.

(** X13: a name looked up in the map built by NewAddressBooks gives the
    last address book of the list with that name, which is a book of the
    list stored under its own name, and gives nothing exactly when no book
    of the list has the name. *)
Theorem address_book_lookup (l : list AddressBook) (key : string) :
  (forall book, NewAddressBooks l key = Some book ->
     Name book = key /\ In book l)
  /\ (NewAddressBooks l key = None <->
      forall book, In book l -> Name book <> key)
  /\ (forall before after book,
        l = List.app before (book :: after) ->
        Name book = key ->
        (forall other, In other after -> Name other <> key) ->
        NewAddressBooks l key = Some book).
Proof.
  rewrite NewAddressBooks_lookup. split; [|split].
  - intros book H. apply find_some in H. destruct H as [Hin He].
    apply String.eqb_eq in He. split; [auto|apply in_rev, Hin].
  - split.
    + intros H book Hin E.
      assert (Hr : In book (rev l)) by (apply in_rev; rewrite rev_involutive;
                                        exact Hin).
      pose proof (find_none _ _ H book Hr) as F. cbv beta in F.
      rewrite E, String.eqb_refl in F. discriminate.
    + intros H. apply find_all_false. intros book Hin.
      apply String.eqb_neq. intros E. apply (H book); [apply in_rev, Hin|auto].
  - intros before after book -> Hn Hafter.
    rewrite rev_app_distr. cbn [rev]. rewrite <- app_assoc.
    assert (F : forall l1 l2,
               (forall o, In o l1 -> Name o <> key) ->
               find (fun b => String.eqb key (Name b)) (List.app l1 l2)
               = find (fun b => String.eqb key (Name b)) l2).
    { induction l1 as [|o l1 IH1]; intros l2 Hl1; [reflexivity|].
      cbn [List.app find].
      replace (String.eqb key (Name o)) with false.
      - apply IH1. intros o' Ho'. apply Hl1. right. exact Ho'.
      - symmetry. apply String.eqb_neq. intros E.
        apply (Hl1 o (or_introl eq_refl)). auto. }
    rewrite F by (intros o Ho; apply Hafter, in_rev, Ho).
    cbn [List.app find]. rewrite <- Hn, String.eqb_refl. reflexivity.
Qed.

Lemma collectBirthdays_app (a b : list string) :
  collectBirthdays (List.app a b)
  = List.app (collectBirthdays a) (collectBirthdays b).
Proof.
  induction a as [|v a IH]; [reflexivity|].
  cbn [List.app collectBirthdays].
  destruct (parseBirthdayVCard v); rewrite IH; reflexivity.
Qed.

Lemma appendBirthdays_collect (birthdays : list Birthday)
    (response : Response) :
  appendBirthdays birthdays response
  = List.app birthdays
      (collectBirthdays
         (map (fun propstat => AddressData (Propstat_Prop propstat))
            (Response_Propstat response))).
Proof.
  unfold appendBirthdays. revert birthdays.
  induction (Response_Propstat response) as [|p ps IH]; intros birthdays.
  - cbn. rewrite app_nil_r. reflexivity.
  - cbn [fold_left map collectBirthdays]. rewrite IH.
    destruct (parseBirthdayVCard (AddressData (Propstat_Prop p)));
      [rewrite <- app_assoc|]; reflexivity.
Qed.

Lemma fold_appendBirthdays (rs : list Response) (birthdays : list Birthday) :
  fold_left appendBirthdays rs birthdays
  = List.app birthdays
      (collectBirthdays
         (flat_map (fun response =>
                      map (fun propstat => AddressData (Propstat_Prop propstat))
                        (Response_Propstat response)) rs)).
Proof.
  revert birthdays. induction rs as [|r rs IH]; intros birthdays.
  - cbn. rewrite app_nil_r. reflexivity.
  - cbn [fold_left flat_map].
    rewrite IH, appendBirthdays_collect, collectBirthdays_app, app_assoc.
    reflexivity.
Qed.

Lemma getBirthdays_replied (Status : string) (ms : MultiStatus) :
  getBirthdays (Replies 207 Status (inr ms))
  = inl (collectBirthdays (vcardsOf ms)).
Proof.
  cbn [getBirthdays]. change (negb (207 =? StatusMultiStatus)) with false.
  cbv iota. rewrite fold_appendBirthdays. reflexivity.
Qed.

Lemma collectBirthdays_In (vcards : list string) (b : Birthday) :
  In b (collectBirthdays vcards) <->
  exists vcard, In vcard vcards /\ parseBirthdayVCard vcard = Some b.
Proof.
  induction vcards as [|v vs IH]; cbn [collectBirthdays].
  - split; [intros []|intros [v [[] _]]].
  - destruct (parseBirthdayVCard v) as [b'|] eqn:E.
    + cbn [In]. rewrite IH. split.
      * intros [<-|[v' [Hin Hp]]];
          [exists v; split; [left; reflexivity|exact E]|].
        exists v'. split; [right; exact Hin|exact Hp].
      * intros [v' [[<-|Hin] Hp]]; [left; congruence|].
        right. exists v'. auto.
    + rewrite IH. split.
      * intros [v' [Hin Hp]]. exists v'. split; [right; exact Hin|exact Hp].
      * intros [v' [[<-|Hin] Hp]]; [congruence|]. exists v'. auto.
Qed.

Lemma collectBirthdays_length (vcards : list string) :
  (List.length (collectBirthdays vcards) <= List.length vcards)%nat.
Proof.
  induction vcards as [|v vs IH]; cbn [collectBirthdays List.length]; [lia|].
  destruct (parseBirthdayVCard v); cbn [List.length]; lia.
Qed.

(** X14: for a reply with status 207 whose body decodes, getBirthdays
    returns the facts of the records that yield one, in the order of the
    document (responses, then their propstats): never more facts than
    records, each from a record of the document, and the facts of a document
    cut in two are those of the first part followed by those of the
    second. *)
Theorem getBirthdays_returns_the_facts_in_order (Status : string)
    (ms : MultiStatus) :
  exists birthdays,
    getBirthdays (Replies 207 Status (inr ms)) = inl birthdays
    /\ birthdays = collectBirthdays (vcardsOf ms)
    /\ (forall b, In b birthdays <->
          exists vcard, In vcard (vcardsOf ms)
                        /\ parseBirthdayVCard vcard = Some b)
    /\ (List.length birthdays <= List.length (vcardsOf ms))%nat
    /\ (forall responses1 responses2,
          Responses ms = List.app responses1 responses2 ->
          birthdays
          = List.app
              (collectBirthdays
                 (vcardsOf (mkMultiStatus (XMLName ms) responses1)))
              (collectBirthdays
                 (vcardsOf (mkMultiStatus (XMLName ms) responses2)))).
Proof.
  exists (collectBirthdays (vcardsOf ms)).
  split; [apply getBirthdays_replied|split; [reflexivity|split; [|split]]].
  - intros b. apply collectBirthdays_In.
  - apply collectBirthdays_length.
  - intros r1 r2 E. unfold vcardsOf. cbn [Responses]. rewrite E.
    rewrite flat_map_app. apply collectBirthdays_app.
Qed.

(** X15: getBirthdays returns an error exactly when the exchange is not a
    reply with status 207 and a body that decodes; what the records hold
    never makes it fail. *)
Theorem getBirthdays_fails_iff (x : exchange) :
  (exists err, getBirthdays x = inr err) <->
  ~ (exists Status ms, x = Replies 207 Status (inr ms)).
Proof.
  split.
  - intros [err H] [Status [ms ->]].
    rewrite getBirthdays_replied in H. discriminate.
  - intros H. destruct x as [e|e|code status [e|ms]]; cbn [getBirthdays];
      try (eexists; reflexivity).
    + destruct (negb (code =? StatusMultiStatus)); eexists; reflexivity.
    + destruct (Z.eqb_spec code StatusMultiStatus) as [->|Hne];
        cbn [negb]; [|eexists; reflexivity].
      exfalso. apply H. exists status, ms. reflexivity.
Qed.

Section ServerProperties.

Variable Date_String : date.Date -> string.
Variable today : date.Date.
Variable roundTrip : AddressBook -> exchange.
Variable writeError : string -> option string.

(** X17: the handler either leaves the response writer alone and returns
    an error, or, the key being right, the address book known and its server
    replying with a document, sets the two headers (the file name made of
    the address-book name), writes the calendar of the facts of that
    document once, and returns what the write returned. *)
Theorem handler_outcome (addressBooks : AddressBooks) (apiKey : string)
    (r : Request) :
  (fst (Handler Date_String today roundTrip writeError addressBooks apiKey r)
   = []
   /\ snd (Handler Date_String today roundTrip writeError addressBooks
             apiKey r) <> None)
  \/ (exists book Status ms,
        FormValue r "apiKey" = apiKey
        /\ addressBooks (PathValue r "addressBook") = Some book
        /\ roundTrip book = Replies 207 Status (inr ms)
        /\ Handler Date_String today roundTrip writeError addressBooks
             apiKey r
           = ([Header_Set "Content-Type" "text/calendar; charset=utf-8";
               Header_Set "Content-Disposition"
                 ("filename=" ++ PathValue r "addressBook"
                  ++ "-birthdays.ics");
               Write (generateBirthdayIcs Date_String
                        (collectBirthdays (vcardsOf ms)) today)],
              writeError (generateBirthdayIcs Date_String
                            (collectBirthdays (vcardsOf ms)) today))).
Proof.
  unfold Handler.
  destruct (String.eqb_spec (FormValue r "apiKey") apiKey) as [Hk|Hk];
    cbn [negb]; [|left; split; [reflexivity|discriminate]].
  destruct (addressBooks (PathValue r "addressBook")) as [book|] eqn:Eb;
    [|left; split; [reflexivity|discriminate]].
  unfold getBirtdaysAndGenerateIcs.
  destruct (roundTrip book) as [e|e|code status [e|ms]] eqn:Ex;
    cbn [getBirthdays];
    try (left; split; [reflexivity|discriminate]).
  - destruct (negb (code =? StatusMultiStatus));
      left; split; try reflexivity; discriminate.
  - destruct (Z.eqb_spec code StatusMultiStatus) as [->|Hne]; cbn [negb];
      [|left; split; [reflexivity|discriminate]].
    right. exists book, status, ms. rewrite fold_appendBirthdays.
    repeat split; auto.
Qed.

(** X18: every body the handler writes is a calendar document, header
    lines and footer line around the events, all of whose lines end with
    CR LF (the rendering of dates being free of line feeds). *)
Theorem written_body_is_a_calendar (addressBooks : AddressBooks)
    (apiKey : string) (r : Request) (body : string) :
  (forall d, has_byte ascii_LF (Date_String d) = false) ->
  In (Write body)
    (fst (Handler Date_String today roundTrip writeError addressBooks
            apiKey r)) ->
  crlfTerminated body
  /\ exists events,
       body = unlines (List.app headerLines (List.app events footerLines)).
Proof.
  intros HD Hin. unfold Handler in Hin.
  destruct (negb (String.eqb (FormValue r "apiKey") apiKey)); [destruct Hin|].
  destruct (addressBooks (PathValue r "addressBook")) as [book|];
    [|destruct Hin].
  unfold getBirtdaysAndGenerateIcs in Hin.
  destruct (getBirthdays (roundTrip book)) as [bs|e] eqn:E; [|destruct Hin].
  cbn [fst In] in Hin.
  destruct Hin as [Hin|[Hin|[Hin|[]]]]; try discriminate.
  injection Hin as <-.
  assert (Hbs : exists vcards, bs = collectBirthdays vcards).
  { destruct (roundTrip book) as [e|e|code status [e|ms]];
      cbn [getBirthdays] in E; try discriminate.
    - destruct (negb (code =? StatusMultiStatus)); discriminate.
    - destruct (negb (code =? StatusMultiStatus)); [discriminate|].
      rewrite fold_appendBirthdays in E. injection E as <-.
      eexists. reflexivity. }
  destruct Hbs as [vcards ->]. split.
  - apply served_document_crlfTerminated, HD.
  - eexists. apply generateBirthdayIcs_lines.
Qed.

End ServerProperties.

(** X16: two requests without the right key get the same outcome,
    whatever the address books, the name asked for and the servers are: the
    error about the key, and nothing done to the response writer. *)
Theorem wrong_key_reveals_nothing
    (DS1 DS2 : date.Date -> string) (today1 today2 : date.Date)
    (roundTrip1 roundTrip2 : AddressBook -> exchange)
    (writeError1 writeError2 : string -> option string)
    (books1 books2 : AddressBooks) (apiKey : string) (r1 r2 : Request) :
  FormValue r1 "apiKey" <> apiKey ->
  FormValue r2 "apiKey" <> apiKey ->
  Handler DS1 today1 roundTrip1 writeError1 books1 apiKey r1
  = Handler DS2 today2 roundTrip2 writeError2 books2 apiKey r2
  /\ Handler DS1 today1 roundTrip1 writeError1 books1 apiKey r1
     = ([], Some "invalid api key").
Proof.
  intros H1 H2. unfold Handler.
  destruct (String.eqb_spec (FormValue r1 "apiKey") apiKey); [contradiction|].
  destruct (String.eqb_spec (FormValue r2 "apiKey") apiKey); [contradiction|].
  split; reflexivity.
Qed.

(** ** The properties above on sample inputs *)


Lemma birthday_line_encodings_witness :
  bdayStrOf ("BDAY" ++ "" ++ ";VALUE=date:" ++ "2003/06/15") = "2003/06/15"
  /\ bdayStrOf ("BDAY:" ++ "2003/06/15") = "2003/06/15"
  /\ lineDate ("BDAY" ++ "" ++ ";VALUE=date:" ++ "2003/06/15")
     = lineDate ("BDAY:" ++ "2003/06/15").
Proof.
  apply (birthday_line_encodings "" "2003/06/15"); reflexivity.
Defined.

Lemma blanks_around_a_line_are_ignored_witness :
  scanLine locals0 (("  " ++ chr 9) ++ "BDAY:20030615" ++ (" " ++ CR))
  = scanLine locals0 "BDAY:20030615".
Proof.
  apply (blanks_around_a_line_are_ignored locals0); reflexivity.
Defined.

Lemma line_endings_CRLF_or_LF_witness :
  scanVCard (String.concat CRLF ["FN:Jane Doe"; "BDAY:20030615"; ""])
  = scanVCard (String.concat LF ["FN:Jane Doe"; "BDAY:20030615"; ""])
  /\ parseBirthdayVCard
       (String.concat CRLF ["FN:Jane Doe"; "BDAY:20030615"; ""])
     = parseBirthdayVCard
         (String.concat LF ["FN:Jane Doe"; "BDAY:20030615"; ""]).
Proof.
  apply (line_endings_CRLF_or_LF ["FN:Jane Doe"; "BDAY:20030615"; ""]).
  repeat constructor.
Defined.

Lemma wrong_key_reveals_nothing_witness :
  Handler iso_date (date.mkDate 2024 1 1) (fun _ => reply_family)
    (fun _ => None) (NewAddressBooks [book_family]) "s3cret"
    (request_family "guess")
  = Handler iso_date (date.mkDate 2024 1 1) (fun _ => DoFails "timeout")
      (fun _ => None) (NewAddressBooks []) "s3cret" (request_family "")
  /\ Handler iso_date (date.mkDate 2024 1 1) (fun _ => reply_family)
       (fun _ => None) (NewAddressBooks [book_family]) "s3cret"
       (request_family "guess")
     = ([], Some "invalid api key").
Proof.
  apply wrong_key_reveals_nothing; vm_compute; discriminate.
Defined.

Lemma iso_date_LF_free (d : date.Date) :
  has_byte ascii_LF (iso_date d) = false.
Proof.
  unfold iso_date. change "2006-01-02" with (layoutWith "-").
  rewrite (Format_layoutWith "-" (date.ToStdTime d))
    by (right; left; reflexivity).
  rewrite !has_byte_app, !has_LF_appendInt by reflexivity. reflexivity.
Qed.

Lemma written_body_is_a_calendar_witness :
  crlfTerminated
    (generateBirthdayIcs iso_date
       [mkBirthday EmptyString (date.mkDate 2003 6 15) "Jane Doe"]
       (date.mkDate 2024 1 1))
  /\ exists events,
       generateBirthdayIcs iso_date
         [mkBirthday EmptyString (date.mkDate 2003 6 15) "Jane Doe"]
         (date.mkDate 2024 1 1)
       = unlines (List.app headerLines (List.app events footerLines)).
Proof.
  apply (written_body_is_a_calendar iso_date (date.mkDate 2024 1 1)
           (fun _ => reply_family) (fun _ => None)
           (NewAddressBooks [book_family]) "s3cret" (request_family "s3cret")).
  - exact iso_date_LF_free.
  - vm_compute. right. right. left. reflexivity.
Defined.
